(** * Selene: driver lifecycle of [Config], failure hooks and named commands

    A shallow embedding of [selene/core/configuration.py] and of
    [press_sequentially] from [selene/core/command.py].

    Python objects live in an explicit store: a [Config] instance is an
    address, each of its options is an attribute slot that points to a
    [persistent.Box], and two configs may share a box.  Code that calls
    collaborators (selenium, the operating system, user supplied
    strategies) runs in a state-and-exception monad; the collaborators
    themselves are variables of the section. *)

From Stdlib Require Import String Ascii ZArith List Bool Lia.
From stdpp Require Import base option gmap strings list pretty.

Local Open Scope string_scope.
Local Open Scope Z_scope.

(** ** Strings *)

(** [sub in s] of Python for [str]. *)
Fixpoint contains (sub s : string) : bool :=
  String.prefix sub s ||
  match s with
  | EmptyString => false
  | String _ s' => contains sub s'
  end.

(** [str.lower()], on the ASCII letters. *)
Definition lower_ascii (c : ascii) : ascii :=
  let n := nat_of_ascii c in
  if (Nat.leb 65 n && Nat.leb n 90)%bool then ascii_of_nat (n + 32) else c.

Fixpoint lower (s : string) : string :=
  match s with
  | EmptyString => EmptyString
  | String c s' => String (lower_ascii c) (lower s')
  end.

(** [s.replace(old, new)] for a non-empty [old]; [fuel] bounds the scan
    and [String.length s] is always enough. *)
Fixpoint drop (n : nat) (s : string) : string :=
  match n, s with
  | O, _ => s
  | S n', String _ s' => drop n' s'
  | S _, EmptyString => EmptyString
  end.

Fixpoint replace_fuel (fuel : nat) (old new s : string) : string :=
  match fuel with
  | O => s
  | S fuel' =>
      match s with
      | EmptyString => EmptyString
      | String c s' =>
          if String.prefix old s
          then new +:+ replace_fuel fuel' old new (drop (String.length old) s)
          else String c (replace_fuel fuel' old new s')
      end
  end.

Definition replace (old new s : string) : string :=
  replace_fuel (S (String.length s)) old new s.

Definition nl : string := String (ascii_of_nat 10) EmptyString.

(** ** Values, exceptions and outcomes *)

(** A value of a capability of [BaseOptions.capabilities]. *)
Inductive cap_val :=
| CapStr (s : string)
| CapOther (n : nat).

Inductive pyval :=
| VNone
| VEllipsis
| VBool (b : bool)
| VInt (z : Z)
| VStr (s : string)
| VDriver (d : nat)                       (* a WebDriver-like object, by address *)
| VCallable (f : nat)                     (* a callable object, by address *)
| VOptions (caps : list (string * cap_val))  (* a BaseOptions and its capabilities *)
| VService (s : nat)                      (* a selenium Service *)
| VBox (l : nat)                          (* a persistent.Box *)
| VDescriptor (own : bool)                (* a data descriptor; [own]: a _ManagedDriverDescriptor *)
| VCommand (a : nat).                     (* a Command object, by address *)

(** [callable(v)] *)
Definition callable (v : pyval) : bool :=
  match v with
  | VCallable _ => true
  | _ => false
  end.

(** Truth value of [v] in [if], [and], [or], [not]. *)
Definition truthy (v : pyval) : bool :=
  match v with
  | VNone => false
  | VBool b => b
  | VInt z => negb (z =? 0)
  | VStr s => negb (String.eqb s "")
  | _ => true
  end.

(** [v == s] for a [str] literal [s]. *)
Definition eq_str (v : pyval) (s : string) : bool :=
  match v with
  | VStr s' => String.eqb s' s
  | _ => false
  end.

(** An exception: the name of its class, whether the class derives from
    selenium's [WebDriverException], and its [msg] attribute ([None] when
    the attribute holds [None]). *)
Record exn := Exn {
  exn_name : string;
  exn_is_webdriver : bool;
  exn_msg : option string
}.

Definition AttributeError (m : string) : exn := Exn "AttributeError" false (Some m).
Definition TypeError (m : string) : exn := Exn "TypeError" false (Some m).
Definition ImportError (m : string) : exn := Exn "ImportError" false (Some m).

(** [TimeoutException(msg)] of [selene.core.exceptions]. *)
Record timeout_exception := TimeoutException { msg : string }.

Inductive outcome (A : Type) :=
| Ok (a : A)
| Raise (e : exn).
Arguments Ok {A} a.
Arguments Raise {A} e.

(** ** Collaborating objects *)

(** What a WebDriver-like object answers when probed.
    [wd_service = None]: the object has no [service] attribute.
    [wd_service = Some p]: it has one and reading [driver.service.process]
    gives [p]: an error, [None], or a process whose [poll()] gives an
    error or an optional return code. *)
Definition poll_result := outcome (option Z).
Definition process_attr := outcome (option poll_result).

Record webdriver := WebDriver {
  wd_service : option process_attr;
  wd_window_handles : outcome pyval
}.

(** The body of a command: the closure and what it closes over. *)
Inductive closure :=
| PressSequentiallyAction (text : string).

(** [Command(description, fn)] *)
Record command := Command {
  cmd_description : string;
  cmd_fn : closure
}.

(** ** The store *)

Record world := World {
  attrs : gmap nat (gmap string nat);  (* a Config instance: each option to its Box *)
  boxes : gmap nat pyval;              (* Box.value, by address of the Box *)
  atexit : list (nat * pyval);         (* atexit handlers, oldest first: the config and
                                          the driver captured by get_driver *)
  counter : Z;                         (* Config._counter *)
  drivers : gmap nat webdriver;        (* WebDriver-like objects *)
  folders : list string;               (* folders that exist *)
  commands : gmap nat command          (* Command objects *)
}.

Definition set_attrs (a : gmap nat (gmap string nat)) (w : world) : world :=
  World a (boxes w) (atexit w) (counter w) (drivers w) (folders w) (commands w).
Definition set_boxes (b : gmap nat pyval) (w : world) : world :=
  World (attrs w) b (atexit w) (counter w) (drivers w) (folders w) (commands w).
Definition set_atexit (h : list (nat * pyval)) (w : world) : world :=
  World (attrs w) (boxes w) h (counter w) (drivers w) (folders w) (commands w).
Definition set_counter (z : Z) (w : world) : world :=
  World (attrs w) (boxes w) (atexit w) z (drivers w) (folders w) (commands w).
Definition set_folders (f : list string) (w : world) : world :=
  World (attrs w) (boxes w) (atexit w) (counter w) (drivers w) f (commands w).
Definition set_commands (c : gmap nat command) (w : world) : world :=
  World (attrs w) (boxes w) (atexit w) (counter w) (drivers w) (folders w) c.

(** ** Calls to observe *)

Inductive driver_ctor :=
| NewChrome (service : option pyval) (options : pyval)    (* [None]: ChromeService() *)
| NewFirefox (service : option pyval) (options : pyval)   (* [None]: FirefoxService() *)
| NewEdge (service : option pyval) (options : pyval)      (* [None]: EdgeService() *)
| NewRemote (command_executor : pyval) (options : pyval)
| NewAppiumRemote (command_executor : pyval) (options : pyval).

Inductive event :=
| EvBuild (cfg : nat)               (* config.build_driver_strategy(config) *)
| EvAlive (cfg : nat) (v : pyval)   (* config._is_driver_alive_strategy(v) *)
| EvCall (f : nat)                  (* value() for a callable driver *)
| EvQuit (v : pyval)                (* v.quit() *)
| EvNew (c : driver_ctor)           (* a selenium or appium driver constructor *)
| EvScreenshot (cfg : nat)          (* config._save_screenshot_strategy(config) *)
| EvPageSource (cfg : nat) (path : string)
| EvHook (cfg : nat) (msg : string) (* config.hook_wait_failure(error) *)
| EvWindowSize (v : pyval)
| EvSetWindowSize (v : pyval) (width height : Z)
| EvGetUrl (v : pyval) (url : string)
| EvLocate (element : nat)
| EvPerform (keys : list (pyval * string)).

(** ** The monads *)

(** Collaborators: state and exceptions. *)
Definition Ext (A : Type) : Type := world -> outcome A * world.

(** The code of the repository: state, exceptions and the calls it made to
    collaborators, oldest first. *)
Definition M (A : Type) : Type := world -> outcome A * world * list event.

Definition ret {A} (a : A) : M A := fun w => (Ok a, w, []).
Definition raise {A} (e : exn) : M A := fun w => (Raise e, w, []).
Definition bind {A B} (m : M A) (k : A -> M B) : M B :=
  fun w =>
    match m w with
    | (Ok a, w1, t1) =>
        match k a w1 with
        | (r, w2, t2) => (r, w2, (t1 ++ t2)%list)
        end
    | (Raise e, w1, t1) => (Raise e, w1, t1)
    end.

(** A call to a collaborator, recorded as [ev]. *)
Definition call {A} (ev : event) (c : Ext A) : M A :=
  fun w => match c w with (r, w') => (r, w', [ev]) end.

Definition get_world : M world := fun w => (Ok w, w, []).
Definition modify (f : world -> world) : M unit := fun w => (Ok tt, f w, []).

Declare Scope py_scope.
Delimit Scope py_scope with py.
Notation "x <- c1 ;; c2" := (bind c1 (fun x => c2))
  (at level 100, c1 at next level, right associativity) : py_scope.
Notation "c1 ;;; c2" := (bind c1 (fun _ => c2))
  (at level 100, right associativity) : py_scope.
Local Open Scope py_scope.

Definition result_of {A} (r : outcome A * world * list event) : outcome A := r.1.1.
Definition world_of {A} (r : outcome A * world * list event) : world := r.1.2.
Definition events_of {A} (r : outcome A * world * list event) : list event := r.2.

(** [try: return f(), None / except or_ as failure: return None, failure] *)
Definition try_except {A} (catches : exn -> bool) (m : M A) : M (outcome A) :=
  fun w =>
    match m w with
    | (Ok a, w1, t1) => (Ok (Ok a), w1, t1)
    | (Raise e, w1, t1) =>
        if catches e then (Ok (Raise e), w1, t1) else (Raise e, w1, t1)
    end.

(** ** Boxes and attribute slots *)

(** The Box an option of [cfg] points to, if the attribute exists. *)
Definition slot (w : world) (cfg : nat) (name : string) : option nat :=
  attrs w !! cfg ≫= fun d => d !! name.

(** The value held by an option of [cfg]. *)
Definition option_value (w : world) (cfg : nat) (name : string) : option pyval :=
  slot w cfg name ≫= fun l => boxes w !! l.

(** [hasattr(instance, name)] *)
Definition hasattr (cfg : nat) (name : string) : M bool :=
  fun w => (Ok (bool_decide (is_Some (slot w cfg name))), w, []).

(** [getattr(instance, name)]: the Box itself. *)
Definition getattr (cfg : nat) (name : string) : M nat :=
  fun w =>
    match slot w cfg name with
    | Some l => (Ok l, w, [])
    | None => (Raise (AttributeError name), w, [])
    end.

(** [setattr(instance, name, box)] *)
Definition setattr (cfg : nat) (name : string) (l : nat) : M unit :=
  modify (fun w => set_attrs (<[cfg := <[name := l]> (default ∅ (attrs w !! cfg))]> (attrs w)) w).

(** [box.value] *)
Definition box_value (l : nat) : M pyval :=
  fun w =>
    match boxes w !! l with
    | Some v => (Ok v, w, [])
    | None => (Raise (AttributeError "value"), w, [])
    end.

(** [box.value = v] *)
Definition set_box_value (l : nat) (v : pyval) : M unit :=
  modify (fun w => set_boxes (<[l := v]> (boxes w)) w).

(** [persistent.Box(v)]: a new Box, at an address not in use. *)
Definition new_box (v : pyval) : M nat :=
  fun w =>
    let l := fresh (dom (boxes w)) in
    (Ok l, set_boxes (<[l := v]> (boxes w)) w, []).

(** Reading an option other than [driver]: [config.name]. *)
Definition getopt (cfg : nat) (name : string) : M pyval :=
  l <- getattr cfg name ;; box_value l.

(** Modelled from the spec: [persistent.Field.value_from(config, 'driver')]
    of [selene.common.data_structures.persistent], which is not among the
    sources: "isSet() -> bool: true iff handle is not Unset/sentinel" is
    computed on the handle as it is stored, so the handle is read without
    the build path of the descriptor. *)
Definition value_from (cfg : nat) (name : string) : M pyval :=
  getopt cfg name.

(** ** The default liveness check *)

Definition eret {A} (a : A) : Ext A := fun w => (Ok a, w).
Definition eraise {A} (e : exn) : Ext A := fun w => (Raise e, w).
Definition ebind {A B} (c : Ext A) (k : A -> Ext B) : Ext B :=
  fun w =>
    match c w with
    | (Ok a, w1) => k a w1
    | (Raise e, w1) => (Raise e, w1)
    end.

(** Modelled from the spec: [on_error_return_false] of
    [selene.common.helpers], which is not among the sources: "internal
    errors are caught and coerced to false". *)
Definition on_error_return_false (predicate : Ext bool) : Ext bool :=
  fun w =>
    match predicate w with
    | (Ok b, w1) => (Ok b, w1)
    | (Raise _, w1) => (Ok false, w1)
    end.

(** The object behind a value, when it is a WebDriver-like object. *)
Definition find_driver (w : world) (v : pyval) : option webdriver :=
  match v with
  | VDriver d => drivers w !! d
  | _ => None
  end.

(** [hasattr(driver, 'service')] *)
Definition has_service (w : world) (driver : pyval) : bool :=
  match find_driver w driver ≫= wd_service with
  | Some _ => true
  | None => false
  end.

(** [driver.service.process] *)
Definition read_service_process (driver : pyval) : Ext (option poll_result) :=
  fun w =>
    match find_driver w driver ≫= wd_service with
    | Some (Ok p) => (Ok p, w)
    | Some (Raise e) => (Raise e, w)
    | None => (Raise (AttributeError "service"), w)
    end.

(** [process.poll()] *)
Definition poll (process : option poll_result) : Ext (option Z) :=
  fun w =>
    match process with
    | Some (Ok code) => (Ok code, w)
    | Some (Raise e) => (Raise e, w)
    | None => (Raise (AttributeError "poll"), w)
    end.

(** [driver.window_handles] *)
Definition read_window_handles (driver : pyval) : Ext pyval :=
  fun w =>
    match find_driver w driver with
    | Some o => (wd_window_handles o, w)
    | None => (Raise (AttributeError "window_handles"), w)
    end.

Definition is_not_none (v : pyval) : bool :=
  match v with
  | VNone => false
  | _ => true
  end.

(** Default of [Config._is_driver_alive_strategy]. *)
Definition _is_driver_alive_strategy (driver : pyval) : Ext bool :=
  fun w =>
    if has_service w driver then
      ebind (read_service_process driver) (fun process =>
        match process with
        | None => eret false
        | Some _ =>
            ebind (read_service_process driver) (fun process' =>
              ebind (poll process') (fun code =>
                eret (bool_decide (code = None))))
        end) w
    else
      on_error_return_false
        (ebind (read_window_handles driver) (fun handles =>
           eret (is_not_none handles))) w.

(** ** Sample stores and collaborators *)

(** A config at address 0 with each option in a Box of its own. *)
Definition sample_fields : gmap string nat :=
  list_to_map
    [("driver", 0%nat); ("driver_name", 1%nat); ("driver_options", 2%nat);
     ("driver_service", 3%nat); ("driver_remote_url", 4%nat);
     ("_override_driver_with_all_driver_like_options", 5%nat);
     ("hold_driver_at_exit", 6%nat);
     ("_reset_not_alive_driver_on_get_url", 7%nat);
     ("rebuild_not_alive_driver", 8%nat);
     ("save_screenshot_on_failure", 9%nat);
     ("save_page_source_on_failure", 10%nat);
     ("last_screenshot", 11%nat); ("reports_folder", 12%nat);
     ("base_url", 13%nat); ("_get_base_url_on_open_with_no_args", 14%nat);
     ("window_width", 15%nat); ("window_height", 16%nat)].

(** Driver 0 runs; the process of driver 2 has exited; reading
    [service.process] of driver 4 raises; driver 6 is a remote driver
    whose session is gone. *)
Definition running_driver : webdriver :=
  WebDriver (Some (Ok (Some (Ok None)))) (Ok (VStr "window-1")).
Definition exited_driver : webdriver :=
  WebDriver (Some (Ok (Some (Ok (Some 0)))))
    (Raise (Exn "InvalidSessionIdException" true (Some "invalid session id"))).
Definition driver_without_process : webdriver :=
  WebDriver (Some (Raise (AttributeError "'Service' object has no attribute 'process'")))
    (Ok (VStr "window-1")).

Definition lost_remote_driver : webdriver :=
  WebDriver None
    (Raise (Exn "InvalidSessionIdException" true (Some "invalid session id"))).

Definition sample_drivers : gmap nat webdriver :=
  list_to_map [(0%nat, running_driver); (2%nat, exited_driver);
               (4%nat, driver_without_process); (6%nat, lost_remote_driver)].

(** The store of the sample config: its driver handle, three of its
    options, and the defaults of [Config] for the others. *)
Definition sample_world (driver driver_name driver_remote_url : pyval)
    (rebuild_not_alive_driver hold_driver_at_exit : bool) : world :=
  World
    {[ 0%nat := sample_fields ]}
    (list_to_map
       [(0%nat, driver); (1%nat, driver_name); (2%nat, VNone); (3%nat, VNone);
        (4%nat, driver_remote_url); (5%nat, VBool true);
        (6%nat, VBool hold_driver_at_exit); (7%nat, VBool true);
        (8%nat, VBool rebuild_not_alive_driver); (9%nat, VBool true);
        (10%nat, VBool true); (11%nat, VNone);
        (12%nat, VStr "/home/user/.selene/screenshots/1");
        (13%nat, VStr ""); (14%nat, VBool false); (15%nat, VNone); (16%nat, VNone)])
    [] 1700000000000 sample_drivers [] ∅.

(** A build strategy that gives driver 0, the default liveness check, a
    callable that gives the driver at its own address, and a [quit]
    after which the process of the driver has exited. *)
Definition sample_build : nat -> Ext pyval := fun _ w => (Ok (VDriver 0), w).
Definition sample_alive : nat -> pyval -> Ext bool :=
  fun _ driver => _is_driver_alive_strategy driver.
Definition sample_call : nat -> Ext pyval := fun f w => (Ok (VDriver f), w).
Definition sample_quit : pyval -> Ext unit :=
  fun driver w =>
    match driver with
    | VDriver d =>
        (Ok tt,
         World (attrs w) (boxes w) (atexit w) (counter w)
           (<[d := exited_driver]> (drivers w)) (folders w) (commands w))
    | _ => (Raise (AttributeError "quit"), w)
    end.
Definition sample_new_driver : driver_ctor -> Ext pyval := fun _ w => (Ok (VDriver 0), w).

(** A screenshot capture that fails as selenium does when the window is
    gone, a page source capture that succeeds, and no user hook. *)
Definition no_such_window : exn :=
  Exn "NoSuchWindowException" true (Some "no such window").
Definition sample_save_screenshot : nat -> option string -> Ext (option string) :=
  fun _ _ w => (Raise no_such_window, w).
Definition sample_save_page_source : nat -> option string -> Ext (option string) :=
  fun _ path w => (Ok path, w).
Definition sample_hook : nat -> option (timeout_exception -> Ext timeout_exception) :=
  fun _ => None.
Definition sample_path_join (a b : string) : string := a +:+ "/" +:+ b.
Definition sample_path_dirname (file : string) : string :=
  "/home/user/.selene/screenshots/1".

(** The store [w] with [v] in the Box [l]. *)
Definition sample_with (l : nat) (v : pyval) (w : world) : world :=
  set_boxes (<[l := v]> (boxes w)) w.

(** A build strategy that fails as selenium does when no session can be
    created. *)
Definition session_not_created : exn :=
  Exn "SessionNotCreatedException" true (Some "session not created").
Definition failing_build : nat -> Ext pyval := fun _ w => (Raise session_not_created, w).

(** A driver with a window of 1024x768 that opens every url, and a test
    for absolute urls by their scheme. *)
Definition sample_get_window_size : pyval -> Ext (pyval * pyval) :=
  fun _ w => (Ok (VInt 1024, VInt 768), w).
Definition sample_set_window_size : pyval -> Z -> Z -> Ext unit :=
  fun _ _ _ w => (Ok tt, w).
Definition sample_driver_get : pyval -> string -> Ext unit := fun _ _ w => (Ok tt, w).
Definition sample_is_absolute_url (url : string) : bool :=
  (String.prefix "http://" (lower url) || String.prefix "https://" (lower url))%bool.

(** Options for an android app, for Firefox and for Safari. *)
Definition android_options : pyval :=
  VOptions [("platformName", CapStr "Android"); ("appium:app", CapStr "app.apk")].
Definition firefox_options : pyval := VOptions [("browserName", CapStr "firefox")].
Definition safari_options : pyval := VOptions [("browserName", CapStr "safari")].

(** A screenshot capture that fails with an error of the operating
    system, and one that saves the file. *)
Definition no_space_left : exn := Exn "OSError" false (Some "No space left on device").
Definition failing_save_screenshot : nat -> option string -> Ext (option string) :=
  fun _ _ w => (Raise no_space_left, w).
Definition saving_save_screenshot : nat -> option string -> Ext (option string) :=
  fun _ _ w => (Ok (Some "/home/user/.selene/screenshots/1/1700000000000.png"), w).


(** ** The driver lifecycle *)

Section Lifecycle.

(** The strategies a config is customised with and the objects it
    drives.  Each may read and change the store and may raise. *)
Variable build_driver_strategy : nat -> Ext pyval.
(* config.build_driver_strategy(config), by config *)
Variable is_driver_alive_strategy : nat -> pyval -> Ext bool.
(* config._is_driver_alive_strategy(driver), by config *)
Variable call_callable : nat -> Ext pyval.
(* value() for the callable at an address *)
Variable driver_quit : pyval -> Ext unit.
(* driver.quit() *)

(** Default of [Config._is_driver_set_strategy]. *)
Definition _is_driver_set_strategy (driver : pyval) : bool :=
  match driver with
  | VEllipsis => false
  | VNone => false
  | _ => true
  end.

(** Default of [Config._teardown_driver_strategy]. *)
Definition _teardown_driver_strategy (config : nat) (driver : pyval) : M unit :=
  hold <- getopt config "hold_driver_at_exit" ;;
  if negb (truthy hold) then
    if _is_driver_set_strategy driver then
      alive <- call (EvAlive config driver) (is_driver_alive_strategy config driver) ;;
      if alive then call (EvQuit driver) (driver_quit driver) else ret tt
    else ret tt
  else ret tt.

(** Default of [Config._schedule_driver_teardown_strategy]:
    [atexit.register(lambda: config._teardown_driver_strategy(config)(get_driver()))]
    where [get_driver] is always [lambda: driver]. *)
Definition _schedule_driver_teardown_strategy (config : nat) (driver : pyval) : M unit :=
  modify (fun w => set_atexit (atexit w ++ [(config, driver)])%list w).

(** What a registered handler does when the process exits. *)
Definition run_handler (h : nat * pyval) : M unit :=
  _teardown_driver_strategy h.1 h.2.

(** [_DriverStrategiesExecutor] *)
Definition driver_instance (config : nat) : M pyval :=
  value_from config "driver".

Definition is_driver_managed (config : nat) : M bool :=
  v <- driver_instance config ;; ret (negb (callable v)).

Definition is_driver_set (config : nat) : M bool :=
  v <- driver_instance config ;; ret (_is_driver_set_strategy v).

Definition is_driver_alive (config : nat) : M bool :=
  v <- driver_instance config ;;
  call (EvAlive config v) (is_driver_alive_strategy config v).

(** [_ManagedDriverDescriptor.__get__], for [instance] a config. *)
Definition descriptor__get__ (config : nat) : M pyval :=
  driver_box <- getattr config "driver" ;;
  v <- box_value driver_box ;;
  rebuild <-
    match v with
    | VNone => ret true
    | VEllipsis => ret true
    | _ =>
        flag <- getopt config "rebuild_not_alive_driver" ;;
        if (truthy flag && negb (callable v))%bool then
          alive <- call (EvAlive config v) (is_driver_alive_strategy config v) ;;
          ret (negb alive)
        else ret false
    end ;;
  (if rebuild : bool then
     driver <- call (EvBuild config) (build_driver_strategy config) ;;
     (set_box_value driver_box driver ;;;
      _schedule_driver_teardown_strategy config driver)
   else ret tt) ;;;
  value <- box_value driver_box ;;
  match value with
  | VCallable f => call (EvCall f) (call_callable f)
  | _ => ret value
  end.

(** [_ManagedDriverDescriptor.__set__]; [self.default] is [...]. *)
Definition descriptor__set__ (config : nat) (value : pyval) : M unit :=
  has <- hasattr config "driver" ;;
  if negb has then
    driver_box <-
      match value with
      | VBox l => ret l
      | VDescriptor true => new_box VEllipsis
      | VDescriptor false =>
          raise (TypeError "Providing custom descriptor objects on init to customize driver management is not supported")
      | _ =>
          l <- new_box value ;;
          ((if negb (callable value)
            then _schedule_driver_teardown_strategy config value
            else ret tt) ;;;
           ret l)
      end ;;
    setattr config "driver" driver_box
  else
    driver_box <- getattr config "driver" ;;
    (set_box_value driver_box value ;;;
     if negb (callable value)
     then _schedule_driver_teardown_strategy config value
     else ret tt).

(** [config.driver] and [config.driver = value] *)
Definition get_driver (config : nat) : M pyval := descriptor__get__ config.
Definition set_driver (config : nat) (value : pyval) : M unit :=
  descriptor__set__ config value.

(** ** Opening a URL *)

Variable driver_get_window_size : pyval -> Ext (pyval * pyval).
(* driver.get_window_size(): size['width'] and size['height'] *)
Variable driver_set_window_size : pyval -> Z -> Z -> Ext unit.
(* driver.set_window_size(width, height) *)
Variable driver_get : pyval -> string -> Ext unit.
(* driver.get(url) *)
Variable is_absolute_url : string -> bool.
(* helpers.is_absolute_url, not among the sources *)

(** [int(v)] for the values an [Optional[int]] option holds. *)
Definition py_int (v : pyval) : M Z :=
  match v with
  | VInt z => ret z
  | VBool b => ret (if b then 1 else 0)
  | _ => raise (TypeError "int() argument must be a string, a bytes-like object or a real number")
  end.

(** [a + b] for [str]. *)
Definition str_add (a : pyval) (b : string) : M string :=
  match a with
  | VStr s => ret (s +:+ b)
  | _ => raise (TypeError "unsupported operand type(s) for +")
  end.

(** The first statement of [get]: the reset of a driver that is not alive. *)
Definition maybe_reset_driver (config : nat) : M unit :=
  flag <- getopt config "_reset_not_alive_driver_on_get_url" ;;
  cond <-
    (if truthy flag then
       is_set <- is_driver_set config ;;
       if is_set : bool then
         managed <- is_driver_managed config ;;
         if managed : bool then
           alive <- is_driver_alive config ;;
           ret (negb alive)
         else ret false
       else ret false
     else ret false) ;;
  if cond : bool then set_driver config VEllipsis else ret tt.

(** What follows [driver = config.driver] in [get]. *)
Definition tune_window_and_get_with_base_url
    (config : nat) (driver : pyval) (url : option string) : M unit :=
  relative_or_absolute_url <-
    match url with
    | Some u => ret (Some u)
    | None =>
        base_url <- getopt config "base_url" ;;
        if negb (truthy base_url) then ret None
        else
          on_open <- getopt config "_get_base_url_on_open_with_no_args" ;;
          if negb (truthy on_open) then ret None else ret (Some "")
    end ;;
  match relative_or_absolute_url with
  | None => ret tt
  | Some relative_or_absolute_url =>
      width <- getopt config "window_width" ;;
      height <- getopt config "window_height" ;;
      (if (truthy width || truthy height)%bool then
         size <-
           (if negb (truthy width && truthy height) then
              size <- call (EvWindowSize driver) (driver_get_window_size driver) ;;
              ret (if truthy width then width else size.1,
                   if truthy height then height else size.2)
            else ret (width, height)) ;;
         w' <- py_int size.1 ;;
         h' <- py_int size.2 ;;
         call (EvSetWindowSize driver w' h') (driver_set_window_size driver w' h')
       else ret tt) ;;;
      base_url <- getopt config "base_url" ;;
      url' <-
        (if is_absolute_url relative_or_absolute_url
         then ret relative_or_absolute_url
         else str_add base_url relative_or_absolute_url) ;;
      call (EvGetUrl driver url') (driver_get driver url')
  end.

(** Default of [Config._driver_get_url_strategy], applied to [url]:
    [_maybe_reset_driver_then_tune_window_and_get_with_base_url(config)(url)]. *)
Definition _maybe_reset_driver_then_tune_window_and_get_with_base_url
    (config : nat) (url : option string) : M unit :=
  maybe_reset_driver config ;;;
  driver <- get_driver config ;;
  tune_window_and_get_with_base_url config driver url.

(** ** The default build strategy *)

Variable new_driver : driver_ctor -> Ext pyval.
(* the constructors of selenium and appium *)
Variable appium_installed : bool.
(* whether [from appium import webdriver] succeeds *)

(** [key in caps] and [caps[key]] *)
Definition caps_get (caps : list (string * cap_val)) (key : string) : option cap_val :=
  snd <$> List.find (fun kv => String.eqb kv.1 key) caps.

(** [options] when it is truthy, and its capabilities. *)
Definition capabilities (options : pyval) : M (list (string * cap_val)) :=
  match options with
  | VOptions caps => ret caps
  | _ => raise (AttributeError "capabilities")
  end.

Definition service_or_default (service : pyval) : option pyval :=
  if truthy service then Some service else None.

Definition build_chrome (config : nat) : M pyval :=
  service <- getopt config "driver_service" ;;
  options <- getopt config "driver_options" ;;
  let c := NewChrome (service_or_default service) options in
  call (EvNew c) (new_driver c).

Definition build_firefox (config : nat) : M pyval :=
  service <- getopt config "driver_service" ;;
  options <- getopt config "driver_options" ;;
  let c := NewFirefox (service_or_default service) options in
  call (EvNew c) (new_driver c).

Definition build_edge (config : nat) : M pyval :=
  service <- getopt config "driver_service" ;;
  options <- getopt config "driver_options" ;;
  let c := NewEdge (service_or_default service) options in
  call (EvNew c) (new_driver c).

Definition build_remote_driver (config : nat) : M pyval :=
  url <- getopt config "driver_remote_url" ;;
  options <- getopt config "driver_options" ;;
  let c := NewRemote url options in
  call (EvNew c) (new_driver c).

Definition build_appium_driver (config : nat) : M pyval :=
  if appium_installed then
    url <- getopt config "driver_remote_url" ;;
    options <- getopt config "driver_options" ;;
    let c := NewAppiumRemote
               (if truthy url then url else VStr "http://127.0.0.1:4723/wd/hub")
               options in
    call (EvNew c) (new_driver c)
  else raise (ImportError "Appium-Python-Client is not installed").

(** The condition that selects ['appium']. *)
Definition wants_appium (config : nat) : M bool :=
  driver_name <- getopt config "driver_name" ;;
  if eq_str driver_name "appium" then ret true
  else
    driver_options <- getopt config "driver_options" ;;
    if truthy driver_options then
      caps <- capabilities driver_options ;;
      match caps_get caps "platformName" with
      | None => ret false
      | Some (CapStr s) =>
          ret (String.eqb (lower s) "android" || String.eqb (lower s) "ios")%bool
      | Some (CapOther _) => raise (AttributeError "lower")
      end
    else ret false.

(** The key looked up in the dict of builders. *)
Definition builder_key (config : nat) : M pyval :=
  appium <- wants_appium config ;;
  if appium : bool then ret (VStr "appium")
  else
    driver_remote_url <- getopt config "driver_remote_url" ;;
    driver_name <- getopt config "driver_name" ;;
    if (truthy driver_remote_url || eq_str driver_name "remote")%bool
    then ret (VStr "remote")
    else if truthy driver_name then ret driver_name
    else
      driver_options <- getopt config "driver_options" ;;
      if truthy driver_options then
        caps <- capabilities driver_options ;;
        match caps_get caps "browserName" with
        | Some (CapStr s) => ret (VStr s)
        | Some (CapOther _) => ret VNone  (* not a str: none of the five keys *)
        | None => ret (VStr "chrome")
        end
      else ret (VStr "chrome").

(** [{...}.get(key)()] *)
Definition run_builder (config : nat) (key : pyval) : M pyval :=
  if eq_str key "chrome" then build_chrome config
  else if eq_str key "firefox" then build_firefox config
  else if eq_str key "edge" then build_edge config
  else if eq_str key "remote" then build_remote_driver config
  else if eq_str key "appium" then build_appium_driver config
  else raise (TypeError "'NoneType' object is not callable").

(** Default of [Config.build_driver_strategy]. *)
Definition _build_local_driver_by_name_or_remote_by_url_and_options
    (config : nat) : M pyval :=
  key <- builder_key config ;;
  run_builder config key.

(** ** Hooks on a failed wait *)

Variable _save_screenshot_strategy : nat -> option string -> Ext (option string).
(* config._save_screenshot_strategy(config, path) *)
Variable _save_page_source_strategy : nat -> option string -> Ext (option string).
(* config._save_page_source_strategy(config, path) *)
Variable hook_wait_failure : nat -> option (timeout_exception -> Ext timeout_exception).
(* config.hook_wait_failure, by config *)
Variable os_name_is_nt : bool.
Variable os_sep : string.
Variable os_path_join : string -> string -> string.
Variable os_path_dirname : string -> string.

(** Modelled from the spec: [fp._either(fn, or_=WebDriverException)] of
    [selene.common.fp], which is not among the sources: "if enrichment
    itself fails [...] the hook must catch that failure"; the pair
    [(result, None)] or [(None, failure)] is an [outcome]. *)
Definition _either {A} (fn : M A) : M (outcome A) :=
  try_except exn_is_webdriver fn.

(** Modelled from the spec: [fp.pipe] of [selene.common.fp], which is not
    among the sources: "A left-to-right composition of (Error) -> Error
    transformers"; a [None] among the functions is skipped. *)
Fixpoint pipe {A} (functions : list (option (A -> M A))) (x : A) : M A :=
  match functions with
  | [] => ret x
  | None :: rest => pipe rest x
  | Some f :: rest => y <- f x ;; pipe rest y
  end.

Definition _format_path_as_uri (path : option string) : M string :=
  let prefix := "file://" in
  if os_name_is_nt then
    match path with
    | Some p => ret (prefix +:+ replace os_sep "/" p)
    | None => raise (AttributeError "replace")
    end
  else ret (prefix +:+ match path with Some p => p | None => "None" end).

(** [next(self._counter)] *)
Definition next_counter : M Z :=
  fun w => (Ok (counter w), set_counter (counter w + 1) w, []).

Definition path_exists (folder : string) : M bool :=
  fun w => (Ok (existsb (String.eqb folder) (folders w)), w, []).

Definition makedirs (folder : string) : M unit :=
  modify (fun w => set_folders (folder :: folders w) w).

Definition _generate_filename (self : nat) (prefix suffix : string) : M string :=
  path <- getopt self "reports_folder" ;;
  next_id <- next_counter ;;
  let filename := prefix +:+ pretty next_id +:+ suffix in
  match path with
  | VStr path =>
      let file := os_path_join path filename in
      let folder := os_path_dirname file in
      exists_ <- path_exists folder ;;
      ((if (negb exists_ && negb (String.eqb folder ""))%bool
        then makedirs folder else ret tt) ;;;
       ret file)
  | _ => raise (TypeError "expected str, bytes or os.PathLike object")
  end.

(** The note written in place of a path. *)
Definition cannot_be_saved (failure : exn) : string :=
  "cannot be saved because of: " +:+ exn_name failure +:+ ": " +:+
  match exn_msg failure with Some m => m | None => "None" end.

Definition logged (path_or_failure : outcome (option string)) : M string :=
  match path_or_failure with
  | Ok path => _format_path_as_uri path
  | Raise failure => ret (cannot_be_saved failure)
  end.

Definition save_and_log_screenshot (self : nat) (error : timeout_exception)
    : M timeout_exception :=
  r <- _either (call (EvScreenshot self) (_save_screenshot_strategy self None)) ;;
  text <- logged r ;;
  ret (TimeoutException (msg error +:+ nl +:+ "Screenshot: " +:+ text)).

(** The [filename] of [save_and_log_page_source]. *)
Definition page_source_filename (self : nat) : M string :=
  last_screenshot <- getopt self "last_screenshot" ;;
  if truthy last_screenshot then
    match last_screenshot with
    | VStr s => ret (replace ".png" ".html" s)
    | _ => raise (AttributeError "replace")
    end
  else _generate_filename self "" ".html".

Definition save_and_log_page_source (self : nat) (error : timeout_exception)
    : M timeout_exception :=
  filename <- page_source_filename self ;;
  r <- _either (call (EvPageSource self filename)
                  (_save_page_source_strategy self (Some filename))) ;;
  text <- logged r ;;
  ret (TimeoutException (msg error +:+ nl +:+ "PageSource: " +:+ text)).

Definition _inject_screenshot_and_page_source_pre_hooks
    (self : nat) (hook : option (timeout_exception -> M timeout_exception))
    : M (timeout_exception -> M timeout_exception) :=
  screenshot <- getopt self "save_screenshot_on_failure" ;;
  page_source <- getopt self "save_page_source_on_failure" ;;
  ret (pipe [ if truthy screenshot then Some (save_and_log_screenshot self) else None;
              if truthy page_source then Some (save_and_log_page_source self) else None;
              hook ]).

(** [config.hook_wait_failure], with its calls recorded. *)
Definition user_hook (config : nat) : option (timeout_exception -> M timeout_exception) :=
  (fun hook error => call (EvHook config (msg error)) (hook error))
    <$> hook_wait_failure config.

(** The [or_fail_with] that [Config._build_wait_strategy] gives to [Wait]. *)
Definition or_fail_with (config : nat) : M (timeout_exception -> M timeout_exception) :=
  _inject_screenshot_and_page_source_pre_hooks config (user_hook config).

(** ** Copies of a config *)

(** [key in options] and [options[key]] for keyword arguments. *)
Definition kwargs_has (options : list (string * pyval)) (key : string) : bool :=
  existsb (fun kv => String.eqb kv.1 key) options.

Definition kwargs_get (options : list (string * pyval)) (key : string) : option pyval :=
  snd <$> List.find (fun kv => String.eqb kv.1 key) options.

(** Fresh storage for each option given by keyword, [driver] apart. *)
Fixpoint init_options (config : nat) (options : list (string * pyval)) : M unit :=
  match options with
  | [] => ret tt
  | (name, value) :: rest =>
      (if String.eqb name "driver" then ret tt
       else l <- new_box value ;; setattr config name l) ;;;
      init_options config rest
  end.

(** Modelled from the spec: [persistent.replace] of
    [selene.common.data_structures.persistent], which is not among the
    sources: "a new Configuration where unspecified fields are
    shallow-copied and specified fields get fresh, independent storage".
    The new instance starts with the boxes of [obj]; each option of
    [changes] gets a new Box; [driver] is set through [__set__] of its
    descriptor, with the value of [changes] or else with the Box of
    [obj]. *)
Definition persistent_replace (obj : nat) (changes : list (string * pyval)) : M nat :=
  w <- get_world ;;
  match attrs w !! obj with
  | None => raise (AttributeError "__dict__")
  | Some fields =>
      let new := fresh (dom (attrs w)) in
      modify (fun w => set_attrs (<[new := delete "driver" fields]> (attrs w)) w) ;;;
      init_options new changes ;;;
      (match kwargs_get changes "driver" with
       | Some value => descriptor__set__ new value
       | None =>
           match fields !! "driver" with
           | Some l => descriptor__set__ new (VBox l)
           | None => raise (AttributeError "driver")
           end
       end) ;;;
      ret new
  end.

(** [Config.with_] *)
Definition with_ (self : nat) (options_to_override : list (string * pyval)) : M nat :=
  flag <- getopt self "_override_driver_with_all_driver_like_options" ;;
  let options :=
    if (truthy flag
        && negb (kwargs_has options_to_override "driver")
        && existsb (fun kv => contains "driver" kv.1) options_to_override)%bool
    then ("driver", VEllipsis) :: options_to_override
    else options_to_override in
  persistent_replace self options.

(** ** Commands *)

Variable element_locate : nat -> Ext pyval.
(* element.locate() *)
Variable actions_perform : pyval -> list (pyval * string) -> Ext unit.
(* ActionChains(driver) with its queued send_keys_to_element, then perform() *)
Variable Keys_END : string.

(** An element: its config and its address. *)
Record element := Element { element_config : nat; element_id : nat }.

(** [for key in text: actions.send_keys_to_element(element.locate(), Keys.END + key)] *)
Fixpoint send_each_key (el : element) (text : string) (queued : list (pyval * string))
    : M (list (pyval * string)) :=
  match text with
  | EmptyString => ret queued
  | String key rest =>
      located <- call (EvLocate (element_id el)) (element_locate (element_id el)) ;;
      send_each_key el rest (queued ++ [(located, Keys_END +:+ String key EmptyString)])%list
  end.

(** The [action] inside [press_sequentially]. *)
Definition press_sequentially_action (text : string) (el : element) : M unit :=
  driver <- get_driver (element_config el) ;;
  queued <- send_each_key el text [] ;;
  call (EvPerform queued) (actions_perform driver queued).

(** Modelled from the spec: [Command(description, fn)] of
    [selene.common._typing_functions], which is not among the sources:
    a Named Action is "{ name, invoke }", "str(action) -> name", and is
    "directly callable on a subject".  A new object, at an address not
    in use. *)
Definition new_command (description : string) (fn : closure) : M pyval :=
  fun w =>
    let a := fresh (dom (commands w)) in
    (Ok (VCommand a), set_commands (<[a := Command description fn]> (commands w)) w, []).

Definition command_str (w : world) (c : pyval) : option string :=
  match c with
  | VCommand a => cmd_description <$> commands w !! a
  | _ => None
  end.

Definition command_call (c : pyval) (el : element) : M unit :=
  w <- get_world ;;
  match c with
  | VCommand a =>
      match commands w !! a with
      | Some (Command _ (PressSequentiallyAction text)) => press_sequentially_action text el
      | None => raise (TypeError "object is not callable")
      end
  | _ => raise (TypeError "object is not callable")
  end.

(** [press_sequentially] of [selene/core/command.py] *)
Definition press_sequentially (text : string) : M pyval :=
  new_command ("press sequentially: " +:+ text) (PressSequentiallyAction text).

(** ** Predicates of the statements *)

(** [options] carries no [platformName] capability that lowers to
    ['android'] or ['ios']: it is [None], or its capabilities have no
    [platformName], or a [str] other than these two. *)
Definition no_mobile_platform (options : pyval) : Prop :=
  options = VNone \/
  exists caps, options = VOptions caps /\
    (caps_get caps "platformName" = None \/
     exists s, caps_get caps "platformName" = Some (CapStr s) /\
               lower s <> "android" /\ lower s <> "ios").

(** The store once [driver], built in [w], is put in the Box [l] of
    [config] and its teardown is scheduled. *)
Definition built (config l : nat) (driver : pyval) (w : world) : world :=
  set_atexit (atexit w ++ [(config, driver)])%list
    (set_boxes (<[l := driver]> (boxes w)) w).

(** How many times a trace probes liveness, builds, quits. *)
Definition is_alive_event (e : event) : bool :=
  match e with EvAlive _ _ => true | _ => false end.
Definition is_build_event (e : event) : bool :=
  match e with EvBuild _ => true | _ => false end.
Definition is_quit_event (e : event) : bool :=
  match e with EvQuit _ => true | _ => false end.
Definition count (p : event -> bool) (t : list event) : nat :=
  length (List.filter p t).

(** [n] teardowns of one driver in a row, as when [n] handlers were
    registered for it: the store they leave and the calls they make.  A
    teardown that raises does not keep the next from running. *)
Fixpoint teardown_times (n : nat) (config : nat) (driver : pyval) (w : world)
    : world * list event :=
  match n with
  | O => (w, [])
  | S n' =>
      let run := _teardown_driver_strategy config driver w in
      let rest := teardown_times n' config driver (world_of run) in
      (rest.1, (events_of run ++ rest.2)%list)
  end.

(** The last statements of [get]: the url from [base_url], and
    [driver.get(url)]. *)
Definition get_with_base_url (config : nat) (driver : pyval)
    (relative_or_absolute_url : string) : M unit :=
  base_url <- getopt config "base_url" ;;
  url' <-
    (if is_absolute_url relative_or_absolute_url
     then ret relative_or_absolute_url
     else str_add base_url relative_or_absolute_url) ;;
  call (EvGetUrl driver url') (driver_get driver url').

(** [s] with [f] applied to each of its characters. *)
Fixpoint map_chars (f : ascii -> ascii) (s : string) : string :=
  match s with
  | EmptyString => EmptyString
  | String c s' => String (f c) (map_chars f s')
  end.

(** * Properties *)

(** ** Running the monad *)

Lemma bind_ok {A B} (m : M A) (k : A -> M B) w a w1 t1 :
  m w = (Ok a, w1, t1) ->
  bind m k w = (result_of (k a w1), world_of (k a w1), (t1 ++ events_of (k a w1))%list).
Proof.
  intros H. unfold bind. rewrite H.
  destruct (k a w1) as [[r w2] t2]. reflexivity.
Qed.

Lemma bind_ok_pure {A B} (m : M A) (k : A -> M B) w a :
  m w = (Ok a, w, []) -> bind m k w = k a w.
Proof.
  intros H. rewrite (bind_ok _ _ _ _ _ _ H).
  destruct (k a w) as [[r w2] t2]. reflexivity.
Qed.

Lemma bind_raise {A B} (m : M A) (k : A -> M B) w e w1 t1 :
  m w = (Raise e, w1, t1) -> bind m k w = (Raise e, w1, t1).
Proof. intros H. unfold bind. now rewrite H. Qed.

Lemma getattr_slot w config name l :
  slot w config name = Some l -> getattr config name w = (Ok l, w, []).
Proof. intros H. unfold getattr. now rewrite H. Qed.

Lemma box_value_lookup w l v :
  boxes w !! l = Some v -> box_value l w = (Ok v, w, []).
Proof. intros H. unfold box_value. now rewrite H. Qed.

Lemma option_value_slot w config name v :
  option_value w config name = Some v ->
  exists l, slot w config name = Some l /\ boxes w !! l = Some v.
Proof.
  unfold option_value. destruct (slot w config name) as [l|]; simpl; [|discriminate].
  intros H. now exists l.
Qed.

Lemma getopt_value w config name v :
  option_value w config name = Some v -> getopt config name w = (Ok v, w, []).
Proof.
  intros H. destruct (option_value_slot _ _ _ _ H) as (l & Hl & Hv).
  unfold getopt. rewrite (bind_ok_pure _ _ _ _ (getattr_slot _ _ _ _ Hl)).
  now apply box_value_lookup.
Qed.

Lemma value_from_value w config name v :
  option_value w config name = Some v -> value_from config name w = (Ok v, w, []).
Proof. apply getopt_value. Qed.

(** Rewriting with the options a hypothesis gives. *)
Ltac read_options :=
  repeat match goal with
  | H : option_value ?w ?c ?n = Some ?v |- context [bind (getopt ?c ?n) ?k ?w] =>
      rewrite (bind_ok_pure (getopt c n) k w v (getopt_value w c n v H))
  | H : option_value ?w ?c ?n = Some ?v |- context [getopt ?c ?n ?w] =>
      rewrite (getopt_value w c n v H)
  end.

(** ** The default build strategy *)

Lemma wants_appium_no w config name options :
  option_value w config "driver_name" = Some name ->
  eq_str name "appium" = false ->
  option_value w config "driver_options" = Some options ->
  no_mobile_platform options ->
  wants_appium config w = (Ok false, w, []).
Proof.
  intros Hn Hna Ho Hm. unfold wants_appium. read_options. rewrite Hna. read_options.
  destruct Hm as [-> | (caps & -> & Hc)]; [reflexivity|].
  simpl. destruct Hc as [Hc | (s & Hc & Ha & Hi)].
  - unfold capabilities. rewrite (bind_ok_pure _ _ w caps eq_refl). now rewrite Hc.
  - unfold capabilities. rewrite (bind_ok_pure _ _ w caps eq_refl). rewrite Hc.
    apply String.eqb_neq in Ha, Hi. now rewrite Ha, Hi.
Qed.

(** C10. With [driver_remote_url] set (a truthy value) and nothing that
    asks for appium ([driver_name] is not ['appium'], [driver_options]
    carries no android/ios [platformName]), the default build strategy
    calls the remote constructor with that url, whatever [driver_name]
    is; with [driver_name], [driver_remote_url] and [driver_options] all
    [None] it builds a Chrome driver. *)
Theorem default_build_remote_by_url_else_chrome (config : nat) (w : world) :
  (forall name options url,
     option_value w config "driver_name" = Some name ->
     eq_str name "appium" = false ->
     option_value w config "driver_options" = Some options ->
     no_mobile_platform options ->
     option_value w config "driver_remote_url" = Some url ->
     truthy url = true ->
     _build_local_driver_by_name_or_remote_by_url_and_options config w
     = call (EvNew (NewRemote url options)) (new_driver (NewRemote url options)) w)
  /\
  (forall service,
     option_value w config "driver_name" = Some VNone ->
     option_value w config "driver_options" = Some VNone ->
     option_value w config "driver_remote_url" = Some VNone ->
     option_value w config "driver_service" = Some service ->
     _build_local_driver_by_name_or_remote_by_url_and_options config w
     = call (EvNew (NewChrome (service_or_default service) VNone))
         (new_driver (NewChrome (service_or_default service) VNone)) w).
Proof.
  split.
  - intros name options url Hn Hna Ho Hm Hu Ht.
    unfold _build_local_driver_by_name_or_remote_by_url_and_options, builder_key.
    rewrite (bind_ok_pure _ _ w (VStr "remote")).
    + unfold run_builder. simpl. unfold build_remote_driver. now read_options.
    + rewrite (bind_ok_pure _ _ w false (wants_appium_no _ _ _ _ Hn Hna Ho Hm)).
      read_options. now rewrite Ht.
  - intros service Hn Ho Hu Hs.
    unfold _build_local_driver_by_name_or_remote_by_url_and_options, builder_key.
    rewrite (bind_ok_pure _ _ w (VStr "chrome")).
    + unfold run_builder. simpl. unfold build_chrome. now read_options.
    + rewrite (bind_ok_pure _ _ w false
                 (wants_appium_no _ _ _ _ Hn eq_refl Ho (or_introl eq_refl))).
      read_options. cbn [truthy eq_str orb]. now read_options.
Qed.

(** ** Commands *)

(** C9. [press_sequentially(text)] returns a Command that did not exist
    before the call, whose name is ['press sequentially: '] followed by
    [text] and whose body closes over [text]: calling the command on an
    element runs the action with that [text]; a second call returns
    another object and leaves the first as it is. *)
Theorem press_sequentially_fresh_command (text : string) (w : world) :
  exists a w',
    press_sequentially text w = (Ok (VCommand a), w', []) /\
    commands w !! a = None /\
    commands w' !! a
    = Some (Command ("press sequentially: " +:+ text) (PressSequentiallyAction text)) /\
    command_str w' (VCommand a) = Some ("press sequentially: " +:+ text) /\
    (forall el, command_call (VCommand a) el w' = press_sequentially_action text el w') /\
    forall text', exists a' w'',
      press_sequentially text' w' = (Ok (VCommand a'), w'', []) /\
      a' <> a /\
      command_str w'' (VCommand a') = Some ("press sequentially: " +:+ text') /\
      command_str w'' (VCommand a) = Some ("press sequentially: " +:+ text).
Proof.
  set (a := fresh (dom (commands w))).
  assert (Ha : commands w !! a = None)
    by (apply not_elem_of_dom, is_fresh).
  eexists a, _. split; [reflexivity|]. split; [exact Ha|].
  cbn [commands set_commands]. split; [apply lookup_insert_eq|].
  split; [unfold command_str; cbn [commands set_commands]; now rewrite lookup_insert_eq|].
  split.
  { intros el. unfold command_call. rewrite (bind_ok_pure _ _ _ _ eq_refl).
    cbn [commands set_commands]. now rewrite lookup_insert_eq. }
  intros text'.
  set (c := Command ("press sequentially: " +:+ text) (PressSequentiallyAction text)).
  set (a' := fresh (dom (<[a := c]> (commands w)))).
  assert (Hne : a' <> a).
  { intros Heq. pose proof (is_fresh (dom (<[a := c]> (commands w)))) as Hf.
    apply Hf. fold a'. rewrite Heq. apply elem_of_dom. rewrite lookup_insert_eq. eauto. }
  eexists a', _. split; [reflexivity|]. split; [exact Hne|].
  unfold command_str. cbn [commands set_commands]. fold c. fold a'. split.
  - now rewrite lookup_insert_eq.
  - rewrite lookup_insert_ne by exact Hne. now rewrite lookup_insert_eq.
Qed.

(** ** Reading and writing the driver *)

Lemma call_run {A} (ev : event) (c : Ext A) w r w1 :
  c w = (r, w1) -> call ev c w = (r, w1, [ev]).
Proof. intros H. unfold call. now rewrite H. Qed.

Lemma not_set_cases v :
  _is_driver_set_strategy v = false -> v = VNone \/ v = VEllipsis.
Proof. destruct v; simpl; intros; try discriminate; auto. Qed.

(** A read of an unset handle. *)
Lemma get_driver_unset config w l v0 d w1 :
  slot w config "driver" = Some l ->
  boxes w !! l = Some v0 ->
  _is_driver_set_strategy v0 = false ->
  build_driver_strategy config w = (Ok d, w1) ->
  callable d = false ->
  get_driver config w = (Ok d, built config l d w1, [EvBuild config]).
Proof.
  intros Hl Hv Hset Hb Hc.
  unfold get_driver, descriptor__get__.
  rewrite (bind_ok_pure _ _ _ _ (getattr_slot _ _ _ _ Hl)).
  rewrite (bind_ok_pure _ _ _ _ (box_value_lookup _ _ _ Hv)).
  assert (Hr : (match v0 with
                | VNone => ret true
                | VEllipsis => ret true
                | _ =>
                    flag <- getopt config "rebuild_not_alive_driver" ;;
                    if (truthy flag && negb (callable v0))%bool then
                      alive <- call (EvAlive config v0) (is_driver_alive_strategy config v0) ;;
                      ret (negb alive)
                    else ret false
                end) w = (Ok true, w, []))
    by (destruct (not_set_cases _ Hset) as [-> | ->]; reflexivity).
  rewrite (bind_ok_pure _ _ _ _ Hr).
  unfold bind, call, set_box_value, _schedule_driver_teardown_strategy, modify, box_value.
  rewrite Hb. cbn [boxes set_atexit set_boxes]. rewrite lookup_insert_eq.
  destruct d; try discriminate; reflexivity.
Qed.

(** A read of a stored driver when [rebuild_not_alive_driver] is off. *)
Lemma get_driver_stored config w v flag :
  option_value w config "driver" = Some v ->
  _is_driver_set_strategy v = true ->
  callable v = false ->
  option_value w config "rebuild_not_alive_driver" = Some flag ->
  truthy flag = false ->
  get_driver config w = (Ok v, w, []).
Proof.
  intros Hv Hset Hc Hf Hoff.
  destruct (option_value_slot _ _ _ _ Hv) as (l & Hl & Hb).
  unfold get_driver, descriptor__get__.
  rewrite (bind_ok_pure _ _ _ _ (getattr_slot _ _ _ _ Hl)).
  rewrite (bind_ok_pure _ _ _ _ (box_value_lookup _ _ _ Hb)).
  assert (Hr : (match v with
                | VNone => ret true
                | VEllipsis => ret true
                | _ =>
                    flag <- getopt config "rebuild_not_alive_driver" ;;
                    if (truthy flag && negb (callable v))%bool then
                      alive <- call (EvAlive config v) (is_driver_alive_strategy config v) ;;
                      ret (negb alive)
                    else ret false
                end) w = (Ok false, w, [])).
  { destruct v; try discriminate; read_options; now rewrite Hoff. }
  rewrite (bind_ok_pure _ _ _ _ Hr).
  rewrite (bind_ok_pure _ _ w tt eq_refl).
  rewrite (bind_ok_pure _ _ _ _ (box_value_lookup _ _ _ Hb)).
  destruct v; try discriminate; reflexivity.
Qed.

(** C5. When the handle of a config holds [...] or [None], a read of
    [config.driver] calls [build_driver_strategy] once; if it builds a
    driver (a value that is set and not callable), the read puts it in
    the handle, registers [(config, driver)] with atexit and returns it;
    and a read in any later store where the handle still holds it and
    [rebuild_not_alive_driver] is off returns the same driver and calls
    nothing. *)
Theorem first_read_builds_stores_schedules (config : nat) (w : world)
    (l : nat) (v0 d : pyval) (w1 : world) :
  slot w config "driver" = Some l ->
  boxes w !! l = Some v0 ->
  _is_driver_set_strategy v0 = false ->
  build_driver_strategy config w = (Ok d, w1) ->
  _is_driver_set_strategy d = true ->
  callable d = false ->
  get_driver config w = (Ok d, built config l d w1, [EvBuild config]) /\
  count is_build_event (events_of (get_driver config w)) = 1%nat /\
  boxes (built config l d w1) !! l = Some d /\
  atexit (built config l d w1) = (atexit w1 ++ [(config, d)])%list /\
  (forall w' flag,
     option_value w' config "driver" = Some d ->
     option_value w' config "rebuild_not_alive_driver" = Some flag ->
     truthy flag = false ->
     get_driver config w' = (Ok d, w', [])).
Proof.
  intros Hl Hv Hunset Hb Hset Hc.
  pose proof (get_driver_unset _ _ _ _ _ _ Hl Hv Hunset Hb Hc) as Hget.
  split; [exact Hget|]. split; [now rewrite Hget|].
  split; [cbn [built boxes set_atexit set_boxes]; apply lookup_insert_eq|].
  split; [reflexivity|].
  intros w' flag Hd Hf Hoff. now apply (get_driver_stored _ _ _ flag).
Qed.

Lemma bind_at {A B} (m m' : M A) (k : A -> M B) w :
  m w = m' w -> bind m k w = bind m' k w.
Proof. intros H. unfold bind. now rewrite H. Qed.

Lemma bind_ext {A B} (m : M A) (k k' : A -> M B) w :
  (forall a w', k a w' = k' a w') -> bind m k w = bind m k' w.
Proof.
  intros H. unfold bind. destruct (m w) as [[[a|e] w1] t1]; [|reflexivity].
  now rewrite H.
Qed.

Lemma bind_assoc {A B C} (m : M A) (f : A -> M B) (g : B -> M C) w :
  bind (bind m f) g w = bind m (fun a => bind (f a) g) w.
Proof.
  unfold bind. destruct (m w) as [[[a|e] w1] t1]; [|reflexivity].
  destruct (f a w1) as [[[b|e] w2] t2]; [|reflexivity].
  destruct (g b w2) as [[r w3] t3]. now rewrite app_assoc.
Qed.

Lemma bind_ret {A B} (a : A) (k : A -> M B) w : bind (ret a) k w = k a w.
Proof. unfold bind, ret. now destruct (k a w) as [[r w2] t2]. Qed.

(** A read of a stored driver when [rebuild_not_alive_driver] is on:
    what follows the probe. *)
Lemma get_driver_probed config w l v flag :
  slot w config "driver" = Some l ->
  boxes w !! l = Some v ->
  _is_driver_set_strategy v = true ->
  callable v = false ->
  option_value w config "rebuild_not_alive_driver" = Some flag ->
  truthy flag = true ->
  get_driver config w
  = bind (call (EvAlive config v) (is_driver_alive_strategy config v))
      (fun alive =>
         (if negb alive then
            driver <- call (EvBuild config) (build_driver_strategy config) ;;
            (set_box_value l driver ;;;
             _schedule_driver_teardown_strategy config driver)
          else ret tt) ;;;
         value <- box_value l ;;
         match value with
         | VCallable f => call (EvCall f) (call_callable f)
         | _ => ret value
         end) w.
Proof.
  intros Hl Hv Hset Hc Hf Hon.
  unfold get_driver, descriptor__get__.
  rewrite (bind_ok_pure _ _ _ _ (getattr_slot _ _ _ _ Hl)).
  rewrite (bind_ok_pure _ _ _ _ (box_value_lookup _ _ _ Hv)).
  rewrite (bind_at _ (alive <- call (EvAlive config v) (is_driver_alive_strategy config v) ;;
                      ret (negb alive))).
  - rewrite bind_assoc. apply bind_ext. intros alive w'. now rewrite bind_ret.
  - destruct v; try discriminate; read_options; rewrite Hon; reflexivity.
Qed.

(** C6. With [rebuild_not_alive_driver] on and a stored driver (set, not
    callable) in the handle, a read of [config.driver] probes liveness
    of the stored driver exactly once, whatever follows; when the probe
    answers [False] and the build strategy then builds a driver, the
    read calls the build strategy once, puts the new driver in the
    handle in place of the old one and returns it; when the probe
    answers [True] the stored driver is returned and nothing is built. *)
Theorem strong_rebuild_probes_once_then_rebuilds (config : nat) (w : world)
    (l : nat) (v flag : pyval) :
  slot w config "driver" = Some l ->
  boxes w !! l = Some v ->
  _is_driver_set_strategy v = true ->
  callable v = false ->
  option_value w config "rebuild_not_alive_driver" = Some flag ->
  truthy flag = true ->
  count is_alive_event (events_of (get_driver config w)) = 1%nat /\
  (forall w1 d w2,
     is_driver_alive_strategy config v w = (Ok false, w1) ->
     build_driver_strategy config w1 = (Ok d, w2) ->
     callable d = false ->
     get_driver config w
     = (Ok d, built config l d w2, [EvAlive config v; EvBuild config]) /\
     count is_build_event (events_of (get_driver config w)) = 1%nat /\
     boxes (built config l d w2) !! l = Some d) /\
  (forall w1,
     is_driver_alive_strategy config v w = (Ok true, w1) ->
     boxes w1 !! l = Some v ->
     get_driver config w = (Ok v, w1, [EvAlive config v])).
Proof.
  intros Hl Hv Hset Hc Hf Hon.
  rewrite (get_driver_probed _ _ _ _ _ Hl Hv Hset Hc Hf Hon).
  split; [|split].
  - unfold bind, call, set_box_value, _schedule_driver_teardown_strategy, modify,
      box_value, ret.
    destruct (is_driver_alive_strategy config v w) as [[[]|e] w1]; cbn -[lookup insert];
      [| |reflexivity].
    + destruct (boxes w1 !! l) as [[]|]; try reflexivity.
      cbn -[lookup insert]. now destruct (call_callable f w1).
    + destruct (build_driver_strategy config w1) as [[d|e] w2]; [|reflexivity].
      cbn -[lookup insert]. rewrite lookup_insert_eq.
      destruct d; try reflexivity.
      cbn -[lookup insert]. now destruct (call_callable _ _).
  - intros w1 d w2 Ha Hb Hd.
    assert (Hget : bind (call (EvAlive config v) (is_driver_alive_strategy config v))
      (fun alive =>
         (if negb alive then
            driver <- call (EvBuild config) (build_driver_strategy config) ;;
            (set_box_value l driver ;;;
             _schedule_driver_teardown_strategy config driver)
          else ret tt) ;;;
         value <- box_value l ;;
         match value with
         | VCallable f => call (EvCall f) (call_callable f)
         | _ => ret value
         end) w = (Ok d, built config l d w2, [EvAlive config v; EvBuild config])).
    { unfold bind, call, set_box_value, _schedule_driver_teardown_strategy, modify,
        box_value, ret.
      rewrite Ha. cbn -[lookup insert]. rewrite Hb. cbn -[lookup insert].
      rewrite lookup_insert_eq. destruct d; try discriminate; reflexivity. }
    rewrite Hget. split; [reflexivity|]. split; [reflexivity|].
    cbn [built boxes set_atexit set_boxes]. apply lookup_insert_eq.
  - intros w1 Ha Hb.
    unfold bind, call, box_value, ret. rewrite Ha. cbn -[lookup insert].
    rewrite Hb. destruct v; try discriminate; reflexivity.
Qed.

(** What [__set__] does to the atexit handlers. *)
Lemma set_driver_atexit config value w :
  atexit (world_of (set_driver config value w)) = atexit w \/
  (callable value = false /\
   atexit (world_of (set_driver config value w)) = (atexit w ++ [(config, value)])%list).
Proof.
  unfold set_driver, descriptor__set__, bind, hasattr, getattr, setattr, new_box,
    set_box_value, _schedule_driver_teardown_strategy, modify, ret, raise, world_of.
  destruct (slot w config "driver") as [l|] eqn:Hl.
  - rewrite bool_decide_eq_true_2 by eauto. cbn -[lookup insert fresh dom].
    rewrite ?Hl.
    destruct (callable value) eqn:Hc; cbn -[lookup insert fresh dom]; auto.
  - rewrite bool_decide_eq_false_2 by (intros [? ?]; discriminate).
    cbn -[lookup insert fresh dom].
    destruct value as [| | | | | | | | | |[]|]; cbn -[lookup insert fresh dom]; auto.
Qed.

(** C7. When the handle holds a callable, a read of [config.driver] is
    one call of it, with the result of the call as the result of the
    read and nothing stored; setting a callable as the driver leaves
    the atexit handlers as they are, and whenever setting a value adds
    a handler the value is not callable. *)
Theorem callable_driver_called_each_read_never_scheduled (config : nat) :
  (forall w l f flag,
     slot w config "driver" = Some l ->
     boxes w !! l = Some (VCallable f) ->
     option_value w config "rebuild_not_alive_driver" = Some flag ->
     get_driver config w = call (EvCall f) (call_callable f) w) /\
  (forall w f,
     atexit (world_of (set_driver config (VCallable f) w)) = atexit w) /\
  (forall w value,
     atexit (world_of (set_driver config value w)) <> atexit w ->
     callable value = false /\
     atexit (world_of (set_driver config value w)) = (atexit w ++ [(config, value)])%list).
Proof.
  split; [|split].
  - intros w l f flag Hl Hv Hf.
    unfold get_driver, descriptor__get__.
    rewrite (bind_ok_pure _ _ _ _ (getattr_slot _ _ _ _ Hl)).
    rewrite (bind_ok_pure _ _ _ _ (box_value_lookup _ _ _ Hv)).
    cbn [callable negb]. rewrite bind_assoc. read_options.
    rewrite andb_false_r, !bind_ret.
    now rewrite (bind_ok_pure _ _ _ _ (box_value_lookup _ _ _ Hv)).
  - intros w f.
    destruct (set_driver_atexit config (VCallable f) w) as [H | [H _]]; [exact H|discriminate].
  - intros w value Hne.
    destruct (set_driver_atexit config value w) as [H | H]; [contradiction|exact H].
Qed.

(** ** Opening a URL *)

(** [config.driver = value] after init, for a value that is not callable. *)
Lemma set_driver_existing config w l value :
  slot w config "driver" = Some l ->
  callable value = false ->
  set_driver config value w = (Ok tt, built config l value w, []).
Proof.
  intros Hl Hc. unfold set_driver, descriptor__set__.
  assert (Hh : hasattr config "driver" w = (Ok true, w, [])).
  { unfold hasattr. rewrite bool_decide_eq_true_2; [reflexivity|]. rewrite Hl. eauto. }
  rewrite (bind_ok_pure _ _ _ _ Hh). cbn [negb].
  rewrite (bind_ok_pure _ _ _ _ (getattr_slot _ _ _ _ Hl)). rewrite Hc.
  reflexivity.
Qed.

(** The reset of a driver that is not alive. *)
Lemma maybe_reset_driver_dead config w l v flag w1 :
  option_value w config "_reset_not_alive_driver_on_get_url" = Some flag ->
  truthy flag = true ->
  slot w config "driver" = Some l ->
  boxes w !! l = Some v ->
  _is_driver_set_strategy v = true ->
  callable v = false ->
  is_driver_alive_strategy config v w = (Ok false, w1) ->
  slot w1 config "driver" = Some l ->
  maybe_reset_driver config w
  = (Ok tt, built config l VEllipsis w1, [EvAlive config v]).
Proof.
  intros Hf Hon Hl Hv Hset Hc Ha Hl1.
  assert (Hd : option_value w config "driver" = Some v)
    by (unfold option_value; rewrite Hl; exact Hv).
  assert (Hs : is_driver_set config w = (Ok true, w, [])).
  { unfold is_driver_set, driver_instance.
    rewrite (bind_ok_pure _ _ w v (value_from_value _ _ _ _ Hd)). now rewrite Hset. }
  assert (Hm : is_driver_managed config w = (Ok true, w, [])).
  { unfold is_driver_managed, driver_instance.
    rewrite (bind_ok_pure _ _ w v (value_from_value _ _ _ _ Hd)). now rewrite Hc. }
  assert (Hal : is_driver_alive config w = (Ok false, w1, [EvAlive config v])).
  { unfold is_driver_alive, driver_instance.
    rewrite (bind_ok_pure _ _ w v (value_from_value _ _ _ _ Hd)).
    now apply call_run. }
  unfold maybe_reset_driver. read_options. rewrite Hon.
  assert (Hcond : (is_set <- is_driver_set config ;;
                   if is_set : bool then
                     managed <- is_driver_managed config ;;
                     if managed : bool then
                       alive <- is_driver_alive config ;;
                       ret (negb alive)
                     else ret false
                   else ret false) w = (Ok true, w1, [EvAlive config v])).
  { rewrite (bind_ok_pure _ _ _ _ Hs), (bind_ok_pure _ _ _ _ Hm).
    now rewrite (bind_ok _ _ _ _ _ _ Hal). }
  rewrite (bind_ok _ _ _ _ _ _ Hcond).
  cbn [result_of world_of events_of fst snd].
  now rewrite (set_driver_existing config w1 l VEllipsis Hl1 eq_refl).
Qed.

(** C8. With [_reset_not_alive_driver_on_get_url] on, a stored driver
    (set, not callable) for which the liveness strategy answers [False]
    is replaced by [...] in the handle before [get] reads
    [config.driver], so that the read builds a new driver, which is the
    one [get] goes on with; and a plain read of [config.driver] with
    [rebuild_not_alive_driver] off returns the stored driver without a
    liveness probe, a reset or a build. *)
Theorem get_url_resets_dead_driver_plain_read_does_not (config : nat) (w : world)
    (l : nat) (v : pyval) :
  slot w config "driver" = Some l ->
  boxes w !! l = Some v ->
  _is_driver_set_strategy v = true ->
  callable v = false ->
  (forall flag w1 d w2 url,
     option_value w config "_reset_not_alive_driver_on_get_url" = Some flag ->
     truthy flag = true ->
     is_driver_alive_strategy config v w = (Ok false, w1) ->
     slot w1 config "driver" = Some l ->
     build_driver_strategy config (built config l VEllipsis w1) = (Ok d, w2) ->
     callable d = false ->
     let w3 := built config l d w2 in
     let rest := tune_window_and_get_with_base_url config d url w3 in
     maybe_reset_driver config w = (Ok tt, built config l VEllipsis w1, [EvAlive config v]) /\
     boxes (built config l VEllipsis w1) !! l = Some VEllipsis /\
     _maybe_reset_driver_then_tune_window_and_get_with_base_url config url w
     = (result_of rest, world_of rest,
        ([EvAlive config v; EvBuild config] ++ events_of rest)%list)) /\
  (forall flag,
     option_value w config "rebuild_not_alive_driver" = Some flag ->
     truthy flag = false ->
     get_driver config w = (Ok v, w, [])).
Proof.
  intros Hl Hv Hset Hc. split.
  - intros flag w1 d w2 url Hf Hon Ha Hl1 Hb Hd w3 rest.
    pose proof (maybe_reset_driver_dead _ _ _ _ _ _ Hf Hon Hl Hv Hset Hc Ha Hl1) as Hreset.
    assert (Hbox : boxes (built config l VEllipsis w1) !! l = Some VEllipsis)
      by (cbn [built boxes set_atexit set_boxes]; apply lookup_insert_eq).
    split; [exact Hreset|]. split; [exact Hbox|].
    unfold _maybe_reset_driver_then_tune_window_and_get_with_base_url.
    rewrite (bind_ok _ _ _ _ _ _ Hreset).
    assert (Hget : get_driver config (built config l VEllipsis w1)
                   = (Ok d, w3, [EvBuild config])).
    { apply (get_driver_unset _ _ l VEllipsis); auto. }
    rewrite (bind_ok _ _ _ _ _ _ Hget).
    reflexivity.
  - intros flag Hf Hoff. apply (get_driver_stored _ _ _ flag); auto.
    unfold option_value. rewrite Hl. exact Hv.
Qed.

(** ** Liveness and teardown *)

(** C3, as the code has it. The default liveness check does not raise
    for a value without a [service] attribute: an error raised by
    reading [window_handles] becomes the answer [False]; nor does it
    raise for a value with a [service] whose [process] can be read and,
    when it is not [None], polled without an error, and then it answers
    whether the process is there and still running. *)
Theorem default_liveness_quiet_probe_never_raises (driver : pyval) (w : world) :
  (has_service w driver = false ->
   exists b,
     _is_driver_alive_strategy driver w = (Ok b, w) /\
     (forall e, read_window_handles driver w = (Raise e, w) -> b = false)) /\
  (forall process,
     find_driver w driver ≫= wd_service = Some (Ok process) ->
     (forall p, process = Some p -> exists code, p = Ok code) ->
     _is_driver_alive_strategy driver w
     = (Ok (match process with Some (Ok None) => true | _ => false end), w)).
Proof.
  split.
  - intros Hs. unfold _is_driver_alive_strategy. rewrite Hs.
    unfold on_error_return_false, ebind, eret, read_window_handles.
    destruct (find_driver w driver) as [o|].
    + destruct (wd_window_handles o) as [handles|e].
      * eexists. split; [reflexivity|]. intros e He. discriminate.
      * exists false. split; [reflexivity|]. reflexivity.
    + exists false. split; reflexivity.
  - intros process Hp Hq. unfold _is_driver_alive_strategy, has_service.
    rewrite Hp. unfold ebind, eret, read_service_process, poll. rewrite Hp.
    destruct process as [p|]; [|reflexivity].
    rewrite Hp. destruct (Hq p eq_refl) as [code ->].
    destruct code; reflexivity.
Qed.

(** Reading an option changes nothing and calls nothing. *)
Lemma getopt_pure config name w r w1 t1 :
  getopt config name w = (r, w1, t1) -> w1 = w /\ t1 = [].
Proof.
  unfold getopt, bind, getattr, box_value.
  destruct (slot w config name) as [l|]; [|now inversion 1].
  destruct (boxes w !! l); now inversion 1.
Qed.

(** A teardown quits at most once. *)
Lemma teardown_quits config driver w :
  let run := _teardown_driver_strategy config driver w in
  count is_quit_event (events_of run) = 0%nat \/
  (count is_quit_event (events_of run) = 1%nat /\
   exists w0 r, driver_quit driver w0 = (r, world_of run)).
Proof.
  unfold _teardown_driver_strategy, bind, call, ret, events_of, world_of.
  destruct (getopt config "hold_driver_at_exit" w) as [[[hold|e] w1] t1] eqn:Hg.
  - destruct (getopt_pure _ _ _ _ _ _ Hg) as [-> ->].
    destruct (truthy hold); cbn; [auto|].
    destruct (_is_driver_set_strategy driver); cbn; [|auto].
    destruct (is_driver_alive_strategy config driver w) as [[[]|e] w2]; cbn; auto.
    destruct (driver_quit driver w2) as [r w3] eqn:Hq. cbn. right.
    split; [reflexivity|]. now exists w2, r.
  - destruct (getopt_pure _ _ _ _ _ _ Hg) as [-> ->]. now left.
Qed.



(** ** Copies of a config *)

(** Fresh storage for the options given by keyword leaves the other
    configs, the [driver] slot, the boxes in use and the atexit handlers
    as they are. *)
Lemma init_options_frame new options : forall w,
  exists w',
    init_options new options w = (Ok tt, w', []) /\
    (forall c, c <> new -> attrs w' !! c = attrs w !! c) /\
    slot w' new "driver" = slot w new "driver" /\
    (forall l v, boxes w !! l = Some v -> boxes w' !! l = Some v) /\
    atexit w' = atexit w.
Proof.
  induction options as [|[name value] rest IH]; intros w.
  - exists w. repeat split; auto.
  - cbn [init_options].
    destruct (String.eqb name "driver") eqn:Hn.
    + rewrite bind_ret. apply IH.
    + set (l := fresh (dom (boxes w))).
      set (w1 := set_attrs (<[new := <[name := l]> (default ∅ (attrs w !! new))]> (attrs w))
                   (set_boxes (<[l := value]> (boxes w)) w)).
      assert (H1 : (l <- new_box value ;; setattr new name l) w = (Ok tt, w1, []))
        by reflexivity.
      rewrite (bind_ok _ _ _ _ _ _ H1).
      destruct (IH w1) as (w' & Hrun & Hattrs & Hslot & Hboxes & Hatexit).
      exists w'. rewrite Hrun. split; [reflexivity|].
      apply String.eqb_neq in Hn.
      split; [|split; [|split]].
      * intros c Hc. rewrite (Hattrs c Hc). unfold w1. cbn [attrs set_attrs set_boxes].
        now rewrite lookup_insert_ne.
      * rewrite Hslot. unfold slot, w1. cbn [attrs set_attrs set_boxes].
        rewrite lookup_insert_eq. cbn. rewrite lookup_insert_ne by exact Hn.
        now destruct (attrs w !! new).
      * intros l0 v0 Hl0. apply Hboxes. unfold w1. cbn [boxes set_attrs set_boxes].
        rewrite lookup_insert_ne; [exact Hl0|].
        intros <-. pose proof (is_fresh (dom (boxes w))) as Hf.
        apply Hf. apply elem_of_dom. eauto.
      * rewrite Hatexit. reflexivity.
Qed.

(** C1. When [_override_driver_with_all_driver_like_options] is on and
    a driver is stored in the config, [with_] with options none of which
    is [driver] and one of which has [driver] in its name gives a new
    config whose driver handle is a Box of its own that holds [...];
    the handle of the original still holds its driver. *)
Theorem with_driver_like_option_resets_driver (self : nat) (w : world)
    (options_to_override : list (string * pyval)) (l : nat) (v flag : pyval) :
  slot w self "driver" = Some l ->
  boxes w !! l = Some v ->
  _is_driver_set_strategy v = true ->
  option_value w self "_override_driver_with_all_driver_like_options" = Some flag ->
  truthy flag = true ->
  kwargs_has options_to_override "driver" = false ->
  existsb (fun kv => contains "driver" kv.1) options_to_override = true ->
  exists new w' l',
    with_ self options_to_override w = (Ok new, w', []) /\
    new <> self /\
    attrs w !! new = None /\
    slot w' new "driver" = Some l' /\
    l' <> l /\
    boxes w !! l' = None /\
    option_value w' new "driver" = Some VEllipsis /\
    option_value w' self "driver" = Some v.
Proof.
  intros Hl Hv Hset Hf Hon Hno Hany.
  unfold with_. read_options. rewrite Hon, Hno, Hany. cbn [negb andb].
  unfold persistent_replace. rewrite (bind_ok_pure _ _ w w eq_refl).
  destruct (attrs w !! self) as [fields|] eqn:Hfields;
    [|unfold slot in Hl; rewrite Hfields in Hl; discriminate].
  set (new := fresh (dom (attrs w))).
  assert (Hnew : attrs w !! new = None) by (apply not_elem_of_dom, is_fresh).
  assert (Hne : new <> self) by (intros Heq; rewrite Heq, Hfields in Hnew; discriminate).
  set (w1 := set_attrs (<[new := delete "driver" fields]> (attrs w)) w).
  rewrite (bind_ok _ _ w tt w1 []) by reflexivity.
  destruct (init_options_frame new options_to_override w1)
    as (w2 & Hrun & Hattrs & Hslot & Hboxes & Hatexit).
  assert (Hinit : init_options new (("driver", VEllipsis) :: options_to_override) w1
                  = (Ok tt, w2, [])).
  { cbn [init_options String.eqb Ascii.eqb Bool.eqb]. now rewrite bind_ret. }
  cbn [result_of world_of events_of fst snd app].
  rewrite (bind_ok _ _ _ _ _ _ Hinit).
  cbn [result_of world_of events_of fst snd app kwargs_get List.find String.eqb
       Ascii.eqb Bool.eqb fmap option_fmap option_map].
  assert (Hnone : slot w2 new "driver" = None).
  { rewrite Hslot. unfold slot, w1. cbn [attrs set_attrs].
    rewrite lookup_insert_eq. cbn. apply lookup_delete_eq. }
  set (l' := fresh (dom (boxes w2))).
  set (w3 := set_attrs (<[new := <["driver" := l']> (default ∅ (attrs w2 !! new))]> (attrs w2))
               (set_atexit (atexit w2 ++ [(new, VEllipsis)])%list
                  (set_boxes (<[l' := VEllipsis]> (boxes w2)) w2))).
  assert (Hset3 : descriptor__set__ new VEllipsis w2 = (Ok tt, w3, [])).
  { unfold descriptor__set__.
    assert (Hh : hasattr new "driver" w2 = (Ok false, w2, [])).
    { unfold hasattr. rewrite bool_decide_eq_false_2; [reflexivity|].
      rewrite Hnone. intros [? ?]; discriminate. }
    rewrite (bind_ok_pure _ _ _ _ Hh). reflexivity. }
  rewrite (bind_ok _ _ _ _ _ _ Hset3).
  assert (Hl2 : boxes w2 !! l = Some v) by (apply Hboxes; exact Hv).
  assert (Hfresh : boxes w2 !! l' = None) by (apply not_elem_of_dom, is_fresh).
  assert (Hll : l' <> l) by (intros Heq; rewrite Heq, Hl2 in Hfresh; discriminate).
  exists new, w3, l'. split; [reflexivity|]. split; [exact Hne|]. split; [exact Hnew|].
  assert (Hs3 : slot w3 new "driver" = Some l').
  { unfold slot, w3. cbn [attrs set_attrs set_atexit set_boxes].
    rewrite lookup_insert_eq. cbn. apply lookup_insert_eq. }
  split; [exact Hs3|]. split; [exact Hll|].
  split.
  { destruct (boxes w !! l') as [v'|] eqn:Hw; [|reflexivity].
    assert (boxes w2 !! l' = Some v') by (apply Hboxes; exact Hw). congruence. }
  split.
  - unfold option_value. rewrite Hs3. cbn. unfold w3.
    cbn [boxes set_attrs set_atexit set_boxes]. apply lookup_insert_eq.
  - unfold option_value, slot, w3. cbn [attrs boxes set_attrs set_atexit set_boxes].
    rewrite lookup_insert_ne by exact Hne.
    rewrite (Hattrs self (not_eq_sym Hne)). unfold w1. cbn [attrs set_attrs].
    rewrite lookup_insert_ne by exact Hne.
    unfold slot in Hl. rewrite Hfields in *. cbn in Hl |- *. rewrite Hl. cbn.
    rewrite lookup_insert_ne by exact Hll. exact Hl2.
Qed.

(** ** Hooks on a failed wait *)

Lemma prefix_append a b : String.prefix a (a +:+ b) = true.
Proof.
  induction a as [|c a IH]; [now destruct b|].
  change (String c a +:+ b) with (String c (a +:+ b)). cbn.
  destruct (Ascii.ascii_dec c c); [exact IH|contradiction].
Qed.

Lemma prefix_append_r sub s b :
  String.prefix sub s = true -> String.prefix sub (s +:+ b) = true.
Proof.
  revert s. induction sub as [|c sub IH]; intros s H; [now destruct (s +:+ b)|].
  destruct s as [|c' s]; [discriminate|].
  change (String c' s +:+ b) with (String c' (s +:+ b)). cbn in *.
  destruct (Ascii.ascii_dec c c'); [now apply IH|discriminate].
Qed.

Lemma contains_prefix sub s : String.prefix sub s = true -> contains sub s = true.
Proof. intros H. destruct s; cbn [contains]; rewrite H; reflexivity. Qed.

Lemma contains_append_l sub a s :
  contains sub s = true -> contains sub (a +:+ s) = true.
Proof.
  intros H. induction a as [|c a IH]; [exact H|].
  change (String c a +:+ s) with (String c (a +:+ s)). cbn [contains].
  rewrite IH. apply orb_true_r.
Qed.

Lemma contains_append_r sub s b :
  contains sub s = true -> contains sub (s +:+ b) = true.
Proof.
  induction s as [|c s IH].
  - cbn [contains]. rewrite orb_false_r. intros H. apply contains_prefix.
    now apply (prefix_append_r sub EmptyString b).
  - intros H. cbn [contains] in H. apply orb_true_iff in H.
    change (String c s +:+ b) with (String c (s +:+ b)). cbn [contains].
    destruct H as [H | H].
    + apply (prefix_append_r _ _ b) in H.
      change (String c s +:+ b) with (String c (s +:+ b)) in H. now rewrite H.
    + rewrite (IH H). apply orb_true_r.
Qed.

Lemma cannot_be_saved_note failure :
  contains "cannot be saved because of" (cannot_be_saved failure) = true.
Proof.
  apply contains_prefix. unfold cannot_be_saved.
  change ("cannot be saved because of: " +:+ exn_name failure +:+ ": " +:+
          match exn_msg failure with Some m => m | None => "None" end)
    with ("cannot be saved because of" +:+
          (": " +:+ exn_name failure +:+ ": " +:+
           match exn_msg failure with Some m => m | None => "None" end)).
  apply prefix_append.
Qed.

Lemma bind_ret_r {A} (m : M A) w : bind m ret w = m w.
Proof.
  unfold bind, ret. destruct (m w) as [[[a|e] w1] t1]; [|reflexivity].
  now rewrite app_nil_r.
Qed.

(** The screenshot hook when the capture raises a WebDriverException. *)
Lemma save_and_log_screenshot_failure config error w0 x w1 :
  _save_screenshot_strategy config None w0 = (Raise x, w1) ->
  exn_is_webdriver x = true ->
  save_and_log_screenshot config error w0
  = (Ok (TimeoutException (msg error +:+ nl +:+ "Screenshot: " +:+ cannot_be_saved x)),
     w1, [EvScreenshot config]).
Proof.
  intros Hs Hx. unfold save_and_log_screenshot, _either, try_except, bind, call.
  rewrite Hs, Hx. reflexivity.
Qed.

(** The page source hook when the capture raises a WebDriverException. *)
Lemma save_and_log_page_source_failure config error w0 filename w1 t x w2 :
  page_source_filename config w0 = (Ok filename, w1, t) ->
  _save_page_source_strategy config (Some filename) w1 = (Raise x, w2) ->
  exn_is_webdriver x = true ->
  save_and_log_page_source config error w0
  = (Ok (TimeoutException (msg error +:+ nl +:+ "PageSource: " +:+ cannot_be_saved x)),
     w2, (t ++ [EvPageSource config filename])%list).
Proof.
  intros Hn Hs Hx. unfold save_and_log_page_source.
  rewrite (bind_ok _ _ _ _ _ _ Hn).
  unfold _either, try_except, bind, call. rewrite Hs, Hx. reflexivity.
Qed.

(** The page source hook only adds to the message. *)
Lemma save_and_log_page_source_extends config error w e' w' t :
  save_and_log_page_source config error w = (Ok e', w', t) ->
  exists text, msg e' = msg error +:+ nl +:+ "PageSource: " +:+ text.
Proof.
  unfold save_and_log_page_source, _either, try_except, bind, call, logged, ret.
  destruct (page_source_filename config w) as [[[filename|e] w1] t1]; [|discriminate].
  destruct (_save_page_source_strategy config (Some filename) w1) as [[path|x] w2].
  - destruct (_format_path_as_uri path w2) as [[[text|e] w3] t3]; [|discriminate].
    intros H. inversion H. now exists text.
  - destruct (exn_is_webdriver x); [|discriminate].
    intros H. inversion H. now eexists.
Qed.

(** C2. With [save_screenshot_on_failure] and
    [save_page_source_on_failure] on, the hook given to a wait runs the
    screenshot hook, then the page source hook, then
    [hook_wait_failure] on what the two return; a capture that raises a
    WebDriverException does not make its hook raise: the hook returns
    the timeout error with a ['cannot be saved because of'] note added
    to its message; and when the screenshot capture fails so, the error
    that the user hook receives, or that is returned when there is no
    user hook, starts with the message of the timeout error and has the
    note in it. *)
Theorem failure_hooks_run_in_order_and_note_failed_captures (config : nat) (w : world)
    (screenshot page_source : pyval) :
  option_value w config "save_screenshot_on_failure" = Some screenshot ->
  truthy screenshot = true ->
  option_value w config "save_page_source_on_failure" = Some page_source ->
  truthy page_source = true ->
  exists hooks,
    or_fail_with config w = (Ok hooks, w, []) /\
    (forall error w0,
       hooks error w0
       = (e1 <- save_and_log_screenshot config error ;;
          e2 <- save_and_log_page_source config e1 ;;
          match user_hook config with
          | Some hook => hook e2
          | None => ret e2
          end) w0) /\
    (forall error w0 x w1,
       _save_screenshot_strategy config None w0 = (Raise x, w1) ->
       exn_is_webdriver x = true ->
       exists e1,
         save_and_log_screenshot config error w0 = (Ok e1, w1, [EvScreenshot config]) /\
         String.prefix (msg error) (msg e1) = true /\
         contains "cannot be saved because of" (msg e1) = true) /\
    (forall error w0 filename w1 t x w2,
       page_source_filename config w0 = (Ok filename, w1, t) ->
       _save_page_source_strategy config (Some filename) w1 = (Raise x, w2) ->
       exn_is_webdriver x = true ->
       exists e2,
         save_and_log_page_source config error w0
         = (Ok e2, w2, (t ++ [EvPageSource config filename])%list) /\
         String.prefix (msg error) (msg e2) = true /\
         contains "cannot be saved because of" (msg e2) = true) /\
    (forall error w0 x w1 e2 w2 t2,
       _save_screenshot_strategy config None w0 = (Raise x, w1) ->
       exn_is_webdriver x = true ->
       save_and_log_page_source config
         (TimeoutException (msg error +:+ nl +:+ "Screenshot: " +:+ cannot_be_saved x)) w1
       = (Ok e2, w2, t2) ->
       String.prefix (msg error) (msg e2) = true /\
       contains "cannot be saved because of" (msg e2) = true /\
       hooks error w0
       = match hook_wait_failure config with
         | Some hook =>
             (hook e2 w2,
              (EvScreenshot config :: t2 ++ [EvHook config (msg e2)])%list)
         | None => (Ok e2, w2, (EvScreenshot config :: t2)%list)
         end).
Proof.
  intros Hs Hson Hp Hpon.
  eexists. split.
  { unfold or_fail_with, _inject_screenshot_and_page_source_pre_hooks.
    read_options. rewrite Hson, Hpon. reflexivity. }
  assert (Horder : forall error w0,
    pipe [Some (save_and_log_screenshot config);
          Some (save_and_log_page_source config);
          user_hook config] error w0
    = (e1 <- save_and_log_screenshot config error ;;
       e2 <- save_and_log_page_source config e1 ;;
       match user_hook config with
       | Some hook => hook e2
       | None => ret e2
       end) w0).
  { intros error w0. cbn [pipe]. apply bind_ext. intros e1 w1.
    apply bind_ext. intros e2 w2.
    destruct (user_hook config) as [hook|]; [apply bind_ret_r|reflexivity]. }
  split; [exact Horder|].
  split; [|split].
  - intros error w0 x w1 Hx Hw. eexists. split.
    + apply (save_and_log_screenshot_failure _ _ _ _ _ Hx Hw).
    + split; [apply prefix_append|].
      cbn [msg]. do 3 apply contains_append_l. apply cannot_be_saved_note.
  - intros error w0 filename w1 t x w2 Hn Hx Hw. eexists. split.
    + apply (save_and_log_page_source_failure _ _ _ _ _ _ _ _ Hn Hx Hw).
    + split; [apply prefix_append|].
      cbn [msg]. do 3 apply contains_append_l. apply cannot_be_saved_note.
  - intros error w0 x w1 e2 w2 t2 Hx Hw Hps.
    destruct (save_and_log_page_source_extends _ _ _ _ _ _ Hps) as [text Hm].
    cbn [msg] in Hm.
    split; [|split].
    + rewrite Hm. apply prefix_append_r, prefix_append.
    + rewrite Hm. apply contains_append_r.
      do 3 apply contains_append_l. apply cannot_be_saved_note.
    + rewrite Horder.
      rewrite (bind_ok _ _ _ _ _ _ (save_and_log_screenshot_failure _ error _ _ _ Hx Hw)).
      rewrite (bind_ok _ _ _ _ _ _ Hps).
      unfold user_hook. destruct (hook_wait_failure config) as [hook|].
      * cbn [fmap option_fmap option_map]. unfold call.
        destruct (hook e2 w2) as [r w3]. cbn. reflexivity.
      * cbn. now rewrite app_nil_r.
Qed.

(** * Further properties *)

(** ** Reading and writing the driver *)

(** What starts with a call has the call first in its trace. *)
Lemma bind_call_first {A B} (ev : event) (c : Ext A) (k : A -> M B) w r w2 t :
  bind (call ev c) k w = (r, w2, t) -> exists t', t = ev :: t'.
Proof.
  unfold bind, call. destruct (c w) as [[a|e] w1].
  - destruct (k a w1) as [[r' w'] t']. inversion 1. now eauto.
  - inversion 1. now eauto.
Qed.

(** X1. When the build strategy raises on a read of an unset handle, the
    read raises the same exception, having called the strategy once; it
    writes nothing to the handle and registers nothing: the store is
    the one the strategy left.  If that store still has the unset
    handle, the next read starts with another call of the strategy. *)
Theorem failed_build_propagates_and_stores_nothing (config : nat) (w : world)
    (l : nat) (v0 : pyval) (e : exn) (w1 : world) :
  slot w config "driver" = Some l ->
  boxes w !! l = Some v0 ->
  _is_driver_set_strategy v0 = false ->
  build_driver_strategy config w = (Raise e, w1) ->
  get_driver config w = (Raise e, w1, [EvBuild config]) /\
  (slot w1 config "driver" = Some l ->
   boxes w1 !! l = Some v0 ->
   exists r w2 t, get_driver config w1 = (r, w2, EvBuild config :: t)).
Proof.
  intros Hl Hv Hunset Hb.
  assert (Hread : forall w0, slot w0 config "driver" = Some l -> boxes w0 !! l = Some v0 ->
            get_driver config w0
            = bind (call (EvBuild config) (build_driver_strategy config))
                (fun driver =>
                   (set_box_value l driver ;;;
                    _schedule_driver_teardown_strategy config driver) ;;;
                   value <- box_value l ;;
                   match value with
                   | VCallable f => call (EvCall f) (call_callable f)
                   | _ => ret value
                   end) w0).
  { intros w0 Hl0 Hv0. unfold get_driver, descriptor__get__.
    rewrite (bind_ok_pure _ _ _ _ (getattr_slot _ _ _ _ Hl0)).
    rewrite (bind_ok_pure _ _ _ _ (box_value_lookup _ _ _ Hv0)).
    rewrite (bind_at _ (ret true)).
    - rewrite bind_ret. now rewrite bind_assoc.
    - destruct (not_set_cases _ Hunset) as [-> | ->]; reflexivity. }
  split.
  - rewrite (Hread w Hl Hv). apply bind_raise. now apply call_run.
  - intros Hl1 Hv1. rewrite (Hread w1 Hl1 Hv1).
    match goal with |- exists r w2 t, ?run = _ => destruct run as [[r w2] t] eqn:Hrun end.
    destruct (bind_call_first _ _ _ _ _ _ _ Hrun) as [t' ->]. now eauto.
Qed.

(** X2. The first assignment of [driver], when the instance has no such
    attribute yet: given the descriptor itself it stores [...] in a new
    Box and registers no teardown; given another data descriptor it
    raises TypeError and changes nothing; given a Box it uses that very
    Box, creates none and registers no teardown. *)
Theorem first_set_by_kind_of_value (config : nat) (w : world) :
  slot w config "driver" = None ->
  (exists w',
     set_driver config (VDescriptor true) w = (Ok tt, w', []) /\
     option_value w' config "driver" = Some VEllipsis /\
     slot w' config "driver" = Some (fresh (dom (boxes w))) /\
     atexit w' = atexit w) /\
  (exists m, set_driver config (VDescriptor false) w = (Raise (TypeError m), w, [])) /\
  (forall l, exists w',
     set_driver config (VBox l) w = (Ok tt, w', []) /\
     slot w' config "driver" = Some l /\
     boxes w' = boxes w /\
     atexit w' = atexit w).
Proof.
  intros Hnone.
  assert (Hh : hasattr config "driver" w = (Ok false, w, [])).
  { unfold hasattr. rewrite bool_decide_eq_false_2; [reflexivity|].
    rewrite Hnone. intros [? ?]; discriminate. }
  split; [|split].
  - eexists. unfold set_driver, descriptor__set__.
    rewrite (bind_ok_pure _ _ _ _ Hh). cbn [negb].
    split; [reflexivity|].
    unfold option_value, slot. cbn [attrs boxes set_attrs set_boxes].
    rewrite lookup_insert_eq. cbn. rewrite !lookup_insert_eq. cbn.
    rewrite lookup_insert_eq. auto.
  - eexists. unfold set_driver, descriptor__set__.
    rewrite (bind_ok_pure _ _ _ _ Hh). reflexivity.
  - intros l. eexists. unfold set_driver, descriptor__set__.
    rewrite (bind_ok_pure _ _ _ _ Hh). cbn [negb].
    split; [reflexivity|].
    unfold slot. cbn [attrs boxes atexit set_attrs].
    rewrite lookup_insert_eq. cbn. rewrite lookup_insert_eq. auto.
Qed.

(** X3. After init, each assignment of a value that is not callable
    puts it in the Box of the config and registers one more atexit
    handler, also when the same driver is assigned again: two
    assignments of one driver leave two handlers for it. *)
Theorem set_same_driver_twice_registers_two_handlers (config : nat) (w : world)
    (l : nat) (d : pyval) :
  slot w config "driver" = Some l ->
  callable d = false ->
  let w1 := world_of (set_driver config d w) in
  let w2 := world_of (set_driver config d w1) in
  result_of (set_driver config d w) = Ok tt /\
  result_of (set_driver config d w1) = Ok tt /\
  option_value w2 config "driver" = Some d /\
  atexit w2 = (atexit w ++ [(config, d); (config, d)])%list.
Proof.
  intros Hl Hc w1 w2.
  pose proof (set_driver_existing config w l d Hl Hc) as H1.
  assert (Hw1 : w1 = built config l d w) by (unfold w1; now rewrite H1).
  assert (Hl1 : slot w1 config "driver" = Some l) by (rewrite Hw1; exact Hl).
  pose proof (set_driver_existing config w1 l d Hl1 Hc) as H2.
  assert (Hw2 : w2 = built config l d w1) by (unfold w2; now rewrite H2).
  split; [now rewrite H1|]. split; [now rewrite H2|].
  rewrite Hw2, Hw1. split.
  - unfold option_value, slot. cbn [built attrs boxes set_atexit set_boxes].
    unfold slot in Hl. rewrite Hl. cbn. apply lookup_insert_eq.
  - cbn [built atexit set_atexit set_boxes]. now rewrite <- app_assoc.
Qed.

(** X4. A teardown of a value that is not set ([...] or [None]) calls
    nothing and changes nothing, in any store; so the handler that a
    reset [config.driver = ...] registers does nothing at exit. *)
Theorem reset_registers_handler_that_does_nothing (config : nat) (w : world) (l : nat) :
  slot w config "driver" = Some l ->
  set_driver config VEllipsis w = (Ok tt, built config l VEllipsis w, []) /\
  atexit (built config l VEllipsis w) = (atexit w ++ [(config, VEllipsis)])%list /\
  (forall driver w',
     _is_driver_set_strategy driver = false ->
     world_of (run_handler (config, driver) w') = w' /\
     events_of (run_handler (config, driver) w') = []).
Proof.
  intros Hl. split; [now apply set_driver_existing|]. split; [reflexivity|].
  intros driver w' Hunset. unfold run_handler, _teardown_driver_strategy. cbn [fst snd].
  unfold bind. destruct (getopt config "hold_driver_at_exit" w') as [[[hold|e] w1] t1] eqn:Hg;
    destruct (getopt_pure _ _ _ _ _ _ Hg) as [-> ->]; [|now split].
  rewrite Hunset. destruct (truthy hold); now split.
Qed.

(** A teardown in a store where the driver is known to be gone does not
    quit, and leaves such a store. *)
Lemma teardown_when_gone (gone : world -> Prop) config driver :
  (forall w0, gone w0 -> forall r w1,
     is_driver_alive_strategy config driver w0 = (r, w1) -> r <> Ok true /\ gone w1) ->
  forall w, gone w ->
    count is_quit_event (events_of (_teardown_driver_strategy config driver w)) = 0%nat /\
    gone (world_of (_teardown_driver_strategy config driver w)).
Proof.
  intros Hstay w Hw.
  unfold _teardown_driver_strategy, bind, call, ret, events_of, world_of.
  destruct (getopt config "hold_driver_at_exit" w) as [[[hold|e] w1] t1] eqn:Hg;
    destruct (getopt_pure _ _ _ _ _ _ Hg) as [-> ->]; [|now split].
  destruct (truthy hold); cbn; [now split|].
  destruct (_is_driver_set_strategy driver); cbn; [|now split].
  destruct (is_driver_alive_strategy config driver w) as [r w2] eqn:Ha.
  destruct (Hstay w Hw r w2 Ha) as [Hr Hw2].
  destruct r as [[]|e]; cbn; now split.
Qed.

Lemma teardown_times_when_gone (gone : world -> Prop) config driver :
  (forall w0, gone w0 -> forall r w1,
     is_driver_alive_strategy config driver w0 = (r, w1) -> r <> Ok true /\ gone w1) ->
  forall n w, gone w ->
    count is_quit_event (teardown_times n config driver w).2 = 0%nat.
Proof.
  intros Hstay n. induction n as [|n IH]; intros w Hw; [reflexivity|].
  cbn [teardown_times snd].
  destruct (teardown_when_gone gone config driver Hstay w Hw) as [H0 Hg].
  unfold count in *. rewrite List.filter_app, List.length_app, H0.
  now rewrite (IH _ Hg).
Qed.

(** X5. However many teardowns of one driver run in a row, [quit] is
    called at most once, provided that a driver that has been quit is
    gone for good: after [quit], and after every later liveness probe,
    the liveness strategy does not answer [True]. *)
Theorem any_number_of_teardowns_quit_at_most_once (gone : world -> Prop)
    (config : nat) (driver : pyval) :
  (forall w0 r w1, driver_quit driver w0 = (r, w1) -> gone w1) ->
  (forall w0, gone w0 -> forall r w1,
     is_driver_alive_strategy config driver w0 = (r, w1) -> r <> Ok true /\ gone w1) ->
  forall n w,
    (count is_quit_event (teardown_times n config driver w).2 <= 1)%nat.
Proof.
  intros Hquit Hstay n. induction n as [|n IH]; intros w; [cbn; lia|].
  cbn [teardown_times snd]. unfold count. rewrite List.filter_app, List.length_app.
  fold (count is_quit_event (events_of (_teardown_driver_strategy config driver w))).
  fold (count is_quit_event
          (teardown_times n config driver
             (world_of (_teardown_driver_strategy config driver w))).2).
  destruct (teardown_quits config driver w) as [H0 | [H1 (w0 & r & Hq)]].
  - rewrite H0. apply IH.
  - rewrite H1.
    rewrite (teardown_times_when_gone gone config driver Hstay n _ (Hquit _ _ _ Hq)). lia.
Qed.

(** ** Copies of a config, continued *)

Lemma kwargs_get_absent options key :
  kwargs_has options key = false -> kwargs_get options key = None.
Proof.
  unfold kwargs_has, kwargs_get. induction options as [|[k v] rest IH]; cbn; [reflexivity|].
  destruct (String.eqb k key); cbn; [discriminate|exact IH].
Qed.

(** X6. [with_] shares the driver handle when it does not reset it:
    with no [driver] among the options and either
    [_override_driver_with_all_driver_like_options] off or no option
    with [driver] in its name, the new config points to the Box of the
    original and nothing is registered with atexit; a driver assigned
    to the new config afterwards is the driver of the original too. *)
Theorem with_other_options_shares_driver_box (self : nat) (w : world)
    (options_to_override : list (string * pyval)) (l : nat) (flag : pyval) :
  slot w self "driver" = Some l ->
  option_value w self "_override_driver_with_all_driver_like_options" = Some flag ->
  kwargs_has options_to_override "driver" = false ->
  (truthy flag && existsb (fun kv => contains "driver" kv.1) options_to_override)%bool
  = false ->
  exists new w',
    with_ self options_to_override w = (Ok new, w', []) /\
    new <> self /\
    slot w' new "driver" = Some l /\
    slot w' self "driver" = Some l /\
    atexit w' = atexit w /\
    forall d, callable d = false ->
      result_of (set_driver new d w') = Ok tt /\
      option_value (world_of (set_driver new d w')) self "driver" = Some d.
Proof.
  intros Hl Hf Hno Hcond.
  unfold with_. read_options. rewrite Hno. cbn [negb].
  rewrite andb_true_r, Hcond.
  unfold persistent_replace. rewrite (bind_ok_pure _ _ w w eq_refl).
  destruct (attrs w !! self) as [fields|] eqn:Hfields;
    [|unfold slot in Hl; rewrite Hfields in Hl; discriminate].
  assert (Hfl : fields !! "driver" = Some l)
    by (unfold slot in Hl; rewrite Hfields in Hl; exact Hl).
  set (new := fresh (dom (attrs w))).
  assert (Hnew : attrs w !! new = None) by (apply not_elem_of_dom, is_fresh).
  assert (Hne : new <> self) by (intros Heq; rewrite Heq, Hfields in Hnew; discriminate).
  set (w1 := set_attrs (<[new := delete "driver" fields]> (attrs w)) w).
  rewrite (bind_ok _ _ w tt w1 []) by reflexivity.
  destruct (init_options_frame new options_to_override w1)
    as (w2 & Hrun & Hattrs & Hslot & Hboxes & Hatexit).
  cbn [result_of world_of events_of fst snd app].
  rewrite (bind_ok _ _ _ _ _ _ Hrun).
  cbn [result_of world_of events_of fst snd app].
  rewrite (kwargs_get_absent _ _ Hno), Hfl.
  assert (Hnone : slot w2 new "driver" = None).
  { rewrite Hslot. unfold slot, w1. cbn [attrs set_attrs].
    rewrite lookup_insert_eq. cbn. apply lookup_delete_eq. }
  set (w3 := set_attrs (<[new := <["driver" := l]> (default ∅ (attrs w2 !! new))]> (attrs w2)) w2).
  assert (Hset3 : descriptor__set__ new (VBox l) w2 = (Ok tt, w3, [])).
  { unfold descriptor__set__.
    assert (Hh : hasattr new "driver" w2 = (Ok false, w2, [])).
    { unfold hasattr. rewrite bool_decide_eq_false_2; [reflexivity|].
      rewrite Hnone. intros [? ?]; discriminate. }
    rewrite (bind_ok_pure _ _ _ _ Hh). reflexivity. }
  rewrite (bind_ok _ _ _ _ _ _ Hset3).
  assert (Hs3 : slot w3 new "driver" = Some l).
  { unfold slot, w3. cbn [attrs set_attrs]. rewrite lookup_insert_eq. cbn.
    apply lookup_insert_eq. }
  assert (Hself3 : slot w3 self "driver" = Some l).
  { unfold slot, w3. cbn [attrs set_attrs]. rewrite lookup_insert_ne by exact Hne.
    rewrite (Hattrs self (not_eq_sym Hne)). unfold w1. cbn [attrs set_attrs].
    rewrite lookup_insert_ne by exact Hne. rewrite Hfields. exact Hfl. }
  exists new, w3. split; [reflexivity|]. split; [exact Hne|].
  split; [exact Hs3|]. split; [exact Hself3|].
  split; [unfold w3; cbn [atexit set_attrs]; now rewrite Hatexit|].
  intros d Hd. rewrite (set_driver_existing new w3 l d Hs3 Hd).
  split; [reflexivity|].
  cbn [world_of fst snd]. unfold option_value.
  assert (Hb : slot (built new l d w3) self "driver" = Some l) by exact Hself3.
  rewrite Hb. cbn. apply lookup_insert_eq.
Qed.

(** ** Opening a URL, continued *)

(** X7. The reset before [get] leaves the driver alone, and does not
    even probe it, when [_reset_not_alive_driver_on_get_url] is off,
    when the handle is unset, and when it holds a callable; when the
    probe of a stored driver answers [True] there is no reset either. *)
Theorem maybe_reset_driver_leaves_driver (config : nat) (w : world) (flag v : pyval) :
  option_value w config "_reset_not_alive_driver_on_get_url" = Some flag ->
  option_value w config "driver" = Some v ->
  (truthy flag = false \/ _is_driver_set_strategy v = false \/ callable v = true ->
   maybe_reset_driver config w = (Ok tt, w, [])) /\
  (forall w1,
     truthy flag = true ->
     _is_driver_set_strategy v = true ->
     callable v = false ->
     is_driver_alive_strategy config v w = (Ok true, w1) ->
     maybe_reset_driver config w = (Ok tt, w1, [EvAlive config v])).
Proof.
  intros Hf Hd.
  assert (Hs : is_driver_set config w = (Ok (_is_driver_set_strategy v), w, [])).
  { unfold is_driver_set, driver_instance.
    now rewrite (bind_ok_pure _ _ w v (value_from_value _ _ _ _ Hd)). }
  assert (Hm : is_driver_managed config w = (Ok (negb (callable v)), w, [])).
  { unfold is_driver_managed, driver_instance.
    now rewrite (bind_ok_pure _ _ w v (value_from_value _ _ _ _ Hd)). }
  split.
  - intros Hcase. unfold maybe_reset_driver. read_options.
    destruct (truthy flag) eqn:Hon; [|reflexivity].
    rewrite bind_assoc, (bind_ok_pure _ _ _ _ Hs).
    destruct (_is_driver_set_strategy v) eqn:Hset; [|reflexivity].
    rewrite bind_assoc, (bind_ok_pure _ _ _ _ Hm).
    destruct (callable v) eqn:Hc; [reflexivity|].
    destruct Hcase as [? | [? | ?]]; discriminate.
  - intros w1 Hon Hset Hc Ha.
    assert (Hal : is_driver_alive config w = (Ok true, w1, [EvAlive config v])).
    { unfold is_driver_alive, driver_instance.
      rewrite (bind_ok_pure _ _ w v (value_from_value _ _ _ _ Hd)).
      now apply call_run. }
    unfold maybe_reset_driver. read_options. rewrite Hon.
    rewrite bind_assoc, (bind_ok_pure _ _ _ _ Hs), Hset.
    rewrite bind_assoc, (bind_ok_pure _ _ _ _ Hm), Hc. cbn [negb].
    rewrite bind_assoc, (bind_ok _ _ _ _ _ _ Hal). reflexivity.
Qed.

(** X8. [get] with no url stops once it has the driver, with no call
    to it, when [base_url] is empty and when
    [_get_base_url_on_open_with_no_args] is off; when both are set it
    goes on as for the url ['']. *)
Theorem get_without_url_only_with_base_url_on_open (config : nat) (driver : pyval)
    (w : world) (base_url on_open : pyval) :
  option_value w config "base_url" = Some base_url ->
  option_value w config "_get_base_url_on_open_with_no_args" = Some on_open ->
  (truthy base_url = false \/ truthy on_open = false ->
   tune_window_and_get_with_base_url config driver None w = (Ok tt, w, [])) /\
  (truthy base_url = true -> truthy on_open = true ->
   tune_window_and_get_with_base_url config driver None w
   = tune_window_and_get_with_base_url config driver (Some "") w).
Proof.
  intros Hb Ho. split.
  - intros Hcase. unfold tune_window_and_get_with_base_url. rewrite bind_assoc. read_options.
    destruct (truthy base_url) eqn:Hbt; cbn [negb]; [|now rewrite bind_ret].
    rewrite bind_assoc. read_options.
    destruct (truthy on_open) eqn:Hot; cbn [negb]; [|now rewrite bind_ret].
    destruct Hcase; discriminate.
  - intros Hbt Hot. unfold tune_window_and_get_with_base_url. rewrite bind_assoc.
    read_options. rewrite Hbt. cbn [negb]. rewrite bind_assoc. read_options.
    rewrite Hot. cbn [negb]. now rewrite !bind_ret.
Qed.

(** The statements of [get] after the url is known. *)
Lemma tune_window_then_get config driver u w :
  tune_window_and_get_with_base_url config driver (Some u) w
  = (width <- getopt config "window_width" ;;
     height <- getopt config "window_height" ;;
     (if (truthy width || truthy height)%bool then
        size <-
          (if negb (truthy width && truthy height) then
             size <- call (EvWindowSize driver) (driver_get_window_size driver) ;;
             ret (if truthy width then width else size.1,
                  if truthy height then height else size.2)
           else ret (width, height)) ;;
        w' <- py_int size.1 ;;
        h' <- py_int size.2 ;;
        call (EvSetWindowSize driver w' h') (driver_set_window_size driver w' h')
      else ret tt) ;;;
     get_with_base_url config driver u) w.
Proof.
  unfold tune_window_and_get_with_base_url. now rewrite bind_ret.
Qed.

(** X9. The url that [get] opens: an absolute url as it is, any other
    url appended to [base_url]; with no window size configured this
    call of [driver.get] is the only call made. *)
Theorem get_opens_absolute_url_or_base_url_plus_relative (config : nat) (driver : pyval)
    (w : world) (u base_url : string) :
  option_value w config "window_width" = Some VNone ->
  option_value w config "window_height" = Some VNone ->
  option_value w config "base_url" = Some (VStr base_url) ->
  tune_window_and_get_with_base_url config driver (Some u) w
  = call (EvGetUrl driver (if is_absolute_url u then u else base_url +:+ u))
      (driver_get driver (if is_absolute_url u then u else base_url +:+ u)) w.
Proof.
  intros Hw Hh Hb. rewrite tune_window_then_get. read_options.
  cbn [truthy orb]. rewrite bind_ret. unfold get_with_base_url. read_options.
  destruct (is_absolute_url u); cbn [str_add]; now rewrite bind_ret.
Qed.

(** X10. The window size that [get] sets.  With both [window_width]
    and [window_height] set it calls [set_window_size] with them and
    does not ask the driver for its size; with only one of them set it
    asks for the size once and takes the other dimension from it; a
    dimension of [0] counts as not set. *)
Theorem get_sets_window_size_from_options_and_current_size (config : nat) (driver : pyval)
    (w : world) (u : string) :
  (forall a b,
     option_value w config "window_width" = Some (VInt a) ->
     option_value w config "window_height" = Some (VInt b) ->
     a <> 0 -> b <> 0 ->
     tune_window_and_get_with_base_url config driver (Some u) w
     = (call (EvSetWindowSize driver a b) (driver_set_window_size driver a b) ;;;
        get_with_base_url config driver u) w) /\
  (forall a height cw ch w1,
     option_value w config "window_width" = Some (VInt a) ->
     option_value w config "window_height" = Some height ->
     a <> 0 -> height = VNone \/ height = VInt 0 ->
     driver_get_window_size driver w = (Ok (VInt cw, VInt ch), w1) ->
     tune_window_and_get_with_base_url config driver (Some u) w
     = (result_of
          ((call (EvSetWindowSize driver a ch) (driver_set_window_size driver a ch) ;;;
            get_with_base_url config driver u) w1),
        world_of
          ((call (EvSetWindowSize driver a ch) (driver_set_window_size driver a ch) ;;;
            get_with_base_url config driver u) w1),
        (EvWindowSize driver ::
         events_of
           ((call (EvSetWindowSize driver a ch) (driver_set_window_size driver a ch) ;;;
             get_with_base_url config driver u) w1))%list)) /\
  (forall width height,
     option_value w config "window_width" = Some width ->
     option_value w config "window_height" = Some height ->
     width = VNone \/ width = VInt 0 ->
     height = VNone \/ height = VInt 0 ->
     tune_window_and_get_with_base_url config driver (Some u) w
     = get_with_base_url config driver u w).
Proof.
  split; [|split].
  - intros a b Hw Hh Ha Hb. rewrite tune_window_then_get. read_options.
    cbn [truthy]. apply Z.eqb_neq in Ha, Hb. rewrite Ha, Hb. cbn [negb orb andb].
    rewrite !bind_assoc, (bind_ret (VInt a, VInt b)). cbn [fst snd py_int].
    now rewrite !bind_assoc, (bind_ret a), ?bind_assoc, (bind_ret b).
  - intros a height cw ch w1 Hw Hh Ha Hheight Hsize. rewrite tune_window_then_get.
    read_options. cbn [truthy]. apply Z.eqb_neq in Ha. rewrite Ha. cbn [negb orb andb].
    assert (Hf : truthy height = false) by (destruct Hheight as [-> | ->]; reflexivity).
    rewrite Hf. cbn [negb].
    rewrite !bind_assoc.
    rewrite (bind_ok _ _ _ _ _ _ (call_run _ _ _ _ _ Hsize)).
    rewrite (bind_ret (VInt a, VInt ch)). cbn [fst snd py_int].
    rewrite !bind_assoc, (bind_ret a), ?bind_assoc, (bind_ret ch).
    reflexivity.
  - intros width height Hw Hh Hwidth Hheight. rewrite tune_window_then_get. read_options.
    assert (Hf1 : truthy width = false) by (destruct Hwidth as [-> | ->]; reflexivity).
    assert (Hf2 : truthy height = false) by (destruct Hheight as [-> | ->]; reflexivity).
    rewrite Hf1, Hf2. cbn [orb]. now rewrite bind_ret.
Qed.

(** ** The default liveness check, continued *)

(** X11. The default liveness check answers [False], and does not
    raise, for every value that is not a driver object: [None], [...],
    a callable, a string. *)
Theorem default_liveness_false_for_what_is_no_driver (v : pyval) (w : world) :
  (forall d, v <> VDriver d) ->
  _is_driver_alive_strategy v w = (Ok false, w).
Proof.
  intros Hv.
  assert (Hnone : find_driver w v = None)
    by (destruct v; try reflexivity; now contradiction (Hv d)).
  unfold _is_driver_alive_strategy, has_service, on_error_return_false, ebind,
    read_window_handles.
  now rewrite Hnone.
Qed.

(** ** The default build strategy, continued *)

(** X12. An android or ios [platformName] among the capabilities of
    [driver_options], in any letter case, selects appium whatever
    [driver_name] and [driver_remote_url] are: the appium constructor
    is called with [driver_remote_url], or with
    ['http://127.0.0.1:4723/wd/hub'] when that is not set; when appium
    cannot be imported the build raises [ImportError] and calls no
    constructor. *)
Theorem mobile_platform_builds_appium_before_name_and_url (config : nat) (w : world)
    (name url : pyval) (caps : list (string * cap_val)) (s : string) :
  option_value w config "driver_name" = Some name ->
  option_value w config "driver_options" = Some (VOptions caps) ->
  option_value w config "driver_remote_url" = Some url ->
  caps_get caps "platformName" = Some (CapStr s) ->
  lower s = "android" \/ lower s = "ios" ->
  (appium_installed = true ->
   _build_local_driver_by_name_or_remote_by_url_and_options config w
   = call
       (EvNew (NewAppiumRemote
                 (if truthy url then url else VStr "http://127.0.0.1:4723/wd/hub")
                 (VOptions caps)))
       (new_driver (NewAppiumRemote
                      (if truthy url then url else VStr "http://127.0.0.1:4723/wd/hub")
                      (VOptions caps))) w) /\
  (appium_installed = false ->
   exists m,
     _build_local_driver_by_name_or_remote_by_url_and_options config w
     = (Raise (ImportError m), w, [])).
Proof.
  intros Hn Ho Hu Hc Hs.
  assert (Hwant : wants_appium config w = (Ok true, w, [])).
  { unfold wants_appium. read_options.
    destruct (eq_str name "appium"); [reflexivity|]. read_options.
    cbn [truthy capabilities]. rewrite bind_ret, Hc.
    destruct Hs as [-> | ->]; reflexivity. }
  assert (Hkey : builder_key config w = (Ok (VStr "appium"), w, [])).
  { unfold builder_key. now rewrite (bind_ok_pure _ _ w true Hwant). }
  unfold _build_local_driver_by_name_or_remote_by_url_and_options.
  rewrite (bind_ok_pure _ _ w _ Hkey).
  change (run_builder config (VStr "appium")) with (build_appium_driver config).
  unfold build_appium_driver. split; intros ->.
  - now read_options.
  - eexists. reflexivity.
Qed.

(** X13. With no remote url and nothing that asks for appium, a
    [driver_name] picks the builder: ['firefox'] and ['edge'] call
    their constructors with [driver_service], or with the default
    service when that is not set; a name of no builder raises
    [TypeError] and calls no constructor. *)
Theorem driver_name_picks_builder_unknown_name_raises (config : nat) (w : world)
    (n : string) (options service : pyval) :
  option_value w config "driver_name" = Some (VStr n) ->
  option_value w config "driver_options" = Some options ->
  option_value w config "driver_remote_url" = Some VNone ->
  option_value w config "driver_service" = Some service ->
  no_mobile_platform options ->
  (n = "firefox" ->
   _build_local_driver_by_name_or_remote_by_url_and_options config w
   = call (EvNew (NewFirefox (service_or_default service) options))
       (new_driver (NewFirefox (service_or_default service) options)) w) /\
  (n = "edge" ->
   _build_local_driver_by_name_or_remote_by_url_and_options config w
   = call (EvNew (NewEdge (service_or_default service) options))
       (new_driver (NewEdge (service_or_default service) options)) w) /\
  (n <> "" -> n <> "chrome" -> n <> "firefox" -> n <> "edge" ->
   n <> "remote" -> n <> "appium" ->
   exists m,
     _build_local_driver_by_name_or_remote_by_url_and_options config w
     = (Raise (TypeError m), w, [])).
Proof.
  intros Hn Ho Hu Hs Hm.
  assert (Hkey : n <> "" -> n <> "remote" -> n <> "appium" ->
                 builder_key config w = (Ok (VStr n), w, [])).
  { intros He Hr Ha. unfold builder_key.
    apply String.eqb_neq in He, Hr, Ha.
    rewrite (bind_ok_pure _ _ w false (wants_appium_no _ _ _ _ Hn Ha Ho Hm)).
    read_options. cbn [truthy eq_str orb]. now rewrite Hr, He. }
  unfold _build_local_driver_by_name_or_remote_by_url_and_options.
  split; [|split].
  - intros ->. rewrite (bind_ok_pure _ _ w _ (Hkey ltac:(easy) ltac:(easy) ltac:(easy))).
    change (run_builder config (VStr "firefox")) with (build_firefox config).
    unfold build_firefox. now read_options.
  - intros ->. rewrite (bind_ok_pure _ _ w _ (Hkey ltac:(easy) ltac:(easy) ltac:(easy))).
    change (run_builder config (VStr "edge")) with (build_edge config).
    unfold build_edge. now read_options.
  - intros He Hc Hf Hed Hr Ha. rewrite (bind_ok_pure _ _ w _ (Hkey He Hr Ha)).
    unfold run_builder. cbn [eq_str].
    apply String.eqb_neq in Hc, Hf, Hed, Hr, Ha. rewrite Hc, Hf, Hed, Hr, Ha.
    eexists. reflexivity.
Qed.

(** X14. With [driver_name] and [driver_remote_url] not set, the
    [browserName] capability of [driver_options] picks the builder:
    ['firefox'] builds Firefox with these options, options with no
    [browserName] build Chrome, and a [browserName] that names no
    builder (['safari']) raises [TypeError] and calls no constructor. *)
Theorem browser_name_capability_picks_builder (config : nat) (w : world)
    (caps : list (string * cap_val)) (service : pyval) :
  option_value w config "driver_name" = Some VNone ->
  option_value w config "driver_options" = Some (VOptions caps) ->
  option_value w config "driver_remote_url" = Some VNone ->
  option_value w config "driver_service" = Some service ->
  no_mobile_platform (VOptions caps) ->
  (caps_get caps "browserName" = Some (CapStr "firefox") ->
   _build_local_driver_by_name_or_remote_by_url_and_options config w
   = call (EvNew (NewFirefox (service_or_default service) (VOptions caps)))
       (new_driver (NewFirefox (service_or_default service) (VOptions caps))) w) /\
  (caps_get caps "browserName" = None ->
   _build_local_driver_by_name_or_remote_by_url_and_options config w
   = call (EvNew (NewChrome (service_or_default service) (VOptions caps)))
       (new_driver (NewChrome (service_or_default service) (VOptions caps))) w) /\
  (forall b,
     caps_get caps "browserName" = Some (CapStr b) ->
     b <> "chrome" -> b <> "firefox" -> b <> "edge" -> b <> "remote" -> b <> "appium" ->
     exists m,
       _build_local_driver_by_name_or_remote_by_url_and_options config w
       = (Raise (TypeError m), w, [])).
Proof.
  intros Hn Ho Hu Hs Hm.
  assert (Hkey : builder_key config w
                 = (Ok match caps_get caps "browserName" with
                       | Some (CapStr b) => VStr b
                       | Some (CapOther _) => VNone
                       | None => VStr "chrome"
                       end, w, [])).
  { unfold builder_key.
    rewrite (bind_ok_pure _ _ w false (wants_appium_no _ _ _ _ Hn eq_refl Ho Hm)).
    read_options. cbn [truthy eq_str orb]. read_options.
    cbn [truthy capabilities]. rewrite bind_ret.
    now destruct (caps_get caps "browserName") as [[b|]|]. }
  unfold _build_local_driver_by_name_or_remote_by_url_and_options.
  rewrite (bind_ok_pure _ _ w _ Hkey).
  split; [|split].
  - intros ->. change (run_builder config (VStr "firefox")) with (build_firefox config).
    unfold build_firefox. now read_options.
  - intros ->. change (run_builder config (VStr "chrome")) with (build_chrome config).
    unfold build_chrome. now read_options.
  - intros b -> Hc Hf Hed Hr Ha. unfold run_builder. cbn [eq_str].
    apply String.eqb_neq in Hc, Hf, Hed, Hr, Ha. rewrite Hc, Hf, Hed, Hr, Ha.
    eexists. reflexivity.
Qed.

(** ** Hooks on a failed wait, continued *)

Lemma or_fail_with_pipe config w screenshot page_source :
  option_value w config "save_screenshot_on_failure" = Some screenshot ->
  option_value w config "save_page_source_on_failure" = Some page_source ->
  or_fail_with config w
  = (Ok (pipe [ if truthy screenshot then Some (save_and_log_screenshot config) else None;
                if truthy page_source then Some (save_and_log_page_source config) else None;
                user_hook config ]), w, []).
Proof.
  intros Hs Hp. unfold or_fail_with, _inject_screenshot_and_page_source_pre_hooks.
  now read_options.
Qed.

(** X15. With [save_screenshot_on_failure] off no screenshot is taken
    on a failed wait: with [save_page_source_on_failure] off too, the
    hook of the wait is [hook_wait_failure] alone, and with no such
    hook the timeout error comes back as it is and the store is not
    touched; with the page source on, its hook gets the error first. *)
Theorem captures_switched_off_are_not_taken (config : nat) (w : world)
    (screenshot page_source : pyval) :
  option_value w config "save_screenshot_on_failure" = Some screenshot ->
  truthy screenshot = false ->
  option_value w config "save_page_source_on_failure" = Some page_source ->
  exists hooks,
    or_fail_with config w = (Ok hooks, w, []) /\
    (truthy page_source = false ->
     forall error w0,
       hooks error w0
       = match user_hook config with
         | Some hook => hook error w0
         | None => (Ok error, w0, [])
         end) /\
    (truthy page_source = true ->
     forall error w0,
       hooks error w0
       = (e <- save_and_log_page_source config error ;;
          match user_hook config with
          | Some hook => hook e
          | None => ret e
          end) w0).
Proof.
  intros Hs Hoff Hp. eexists. split; [exact (or_fail_with_pipe _ _ _ _ Hs Hp)|].
  rewrite Hoff. split; intros -> error w0; cbn [pipe].
  - destruct (user_hook config) as [hook|]; [apply bind_ret_r | reflexivity].
  - apply bind_ext. intros e w'.
    destruct (user_hook config) as [hook|]; [apply bind_ret_r | reflexivity].
Qed.

(** X16. A screenshot capture that raises something that is no
    WebDriverException is not turned into a note: the hook of the wait
    raises it, and neither the page source hook nor
    [hook_wait_failure] runs. *)
Theorem capture_failure_of_another_class_propagates (config : nat) (w : world)
    (screenshot page_source : pyval) :
  option_value w config "save_screenshot_on_failure" = Some screenshot ->
  truthy screenshot = true ->
  option_value w config "save_page_source_on_failure" = Some page_source ->
  exists hooks,
    or_fail_with config w = (Ok hooks, w, []) /\
    forall error w0 x w1,
      _save_screenshot_strategy config None w0 = (Raise x, w1) ->
      exn_is_webdriver x = false ->
      hooks error w0 = (Raise x, w1, [EvScreenshot config]).
Proof.
  intros Hs Hon Hp. eexists. split; [exact (or_fail_with_pipe _ _ _ _ Hs Hp)|].
  intros error w0 x w1 Hx Hc. rewrite Hon. cbn [pipe]. apply bind_raise.
  unfold save_and_log_screenshot, _either, try_except, bind, call.
  now rewrite Hx, Hc.
Qed.

(** X17. A capture that returns a path: off Windows the screenshot hook
    adds ['\nScreenshot: file://'] and the path to the message of the
    error, and ['file://None'] when the capture returned [None]; on
    Windows a capture that returned [None] makes the hook raise
    [AttributeError]. *)
Theorem saved_screenshot_is_linked_in_message (config : nat)
    (error : timeout_exception) (w0 : world) (path : option string) (w1 : world) :
  _save_screenshot_strategy config None w0 = (Ok path, w1) ->
  (os_name_is_nt = false ->
   save_and_log_screenshot config error w0
   = (Ok (TimeoutException
            (msg error +:+ nl +:+ "Screenshot: " +:+ "file://" +:+
             match path with Some p => p | None => "None" end)),
      w1, [EvScreenshot config])) /\
  (os_name_is_nt = true -> path = None ->
   exists m,
     save_and_log_screenshot config error w0
     = (Raise (AttributeError m), w1, [EvScreenshot config])).
Proof.
  intros Hs. split.
  - intros Hnt.
    unfold save_and_log_screenshot, _either, try_except, bind, call, logged,
      _format_path_as_uri, ret.
    rewrite Hs, Hnt. reflexivity.
  - intros Hnt ->.
    unfold save_and_log_screenshot, _either, try_except, bind, call, logged,
      _format_path_as_uri, ret, raise.
    rewrite Hs, Hnt. eexists. reflexivity.
Qed.

Lemma replace_fuel_one_char c d s : forall fuel,
  (String.length s < fuel)%nat ->
  replace_fuel fuel (String c EmptyString) (String d EmptyString) s
  = map_chars (fun x => if Ascii.eqb x c then d else x) s.
Proof.
  induction s as [|a s IH]; intros [|fuel] Hlt; cbn in Hlt; try lia; [reflexivity|].
  cbn [replace_fuel map_chars String.prefix].
  assert (Hp : String.prefix "" s = true) by now destruct s.
  rewrite Hp. cbn [String.length drop].
  destruct (ascii_dec c a) as [<- | Hne].
  - rewrite Ascii.eqb_refl. cbn. now rewrite IH by lia.
  - assert (Ha : Ascii.eqb a c = false) by (apply Ascii.eqb_neq; congruence).
    rewrite Ha. now rewrite IH by lia.
Qed.

(** X18. The uri of a path: off Windows ['file://'] and the path as it
    is; on Windows, where [os.sep] is one character, each separator of
    the path becomes ['/'] and every other character stays. *)
Theorem path_as_uri_changes_only_separators (path : string) (sep : ascii) (w : world) :
  (os_name_is_nt = false ->
   _format_path_as_uri (Some path) w = (Ok ("file://" +:+ path), w, [])) /\
  (os_name_is_nt = true -> os_sep = String sep EmptyString ->
   _format_path_as_uri (Some path) w
   = (Ok ("file://" +:+
          map_chars (fun x => if Ascii.eqb x sep then "/"%char else x) path), w, [])).
Proof.
  unfold _format_path_as_uri. split.
  - now intros ->.
  - intros -> ->. unfold replace. now rewrite replace_fuel_one_char by lia.
Qed.

(** ** Names of report files *)



(** ** Commands, continued *)



End Lifecycle.

(** * The properties at sample inputs *)

(** C1 at the sample config with a running driver stored:
    [with_(driver_name='firefox')]. *)
Lemma with_driver_name_firefox_resets_driver :
  let w := sample_world (VDriver 0) VNone VNone false false in
  exists new w' l',
    with_ 0 [("driver_name", VStr "firefox")] w = (Ok new, w', []) /\
    new <> 0%nat /\
    attrs w !! new = None /\
    slot w' new "driver" = Some l' /\
    l' <> 0%nat /\
    boxes w !! l' = None /\
    option_value w' new "driver" = Some VEllipsis /\
    option_value w' 0 "driver" = Some (VDriver 0).
Proof.
  intros w.
  apply (with_driver_like_option_resets_driver 0 w
           [("driver_name", VStr "firefox")] 0 (VDriver 0) (VBool true));
    vm_compute; reflexivity.
Defined.

(** C3 as stated fails: the probe of a driver with a [service] whose
    [process] cannot be read raises. *)
Lemma default_liveness_raises_without_process :
  ~ (forall driver w, exists b, (_is_driver_alive_strategy driver w).1 = Ok b).
Proof.
  intros H.
  destruct (H (VDriver 4) (sample_world (VDriver 4) VNone VNone false false)) as [b Hb].
  vm_compute in Hb. discriminate Hb.
Qed.

(** C3 as the code has it, at a remote driver whose session is gone
    and at a running local driver. *)
Lemma default_liveness_of_lost_remote_and_running_local :
  let w := sample_world (VDriver 0) VNone VNone false false in
  (exists b,
     _is_driver_alive_strategy (VDriver 6) w = (Ok b, w) /\
     (forall e, read_window_handles (VDriver 6) w = (Raise e, w) -> b = false)) /\
  _is_driver_alive_strategy (VDriver 0) w = (Ok true, w).
Proof.
  intros w. split.
  - apply (proj1 (default_liveness_quiet_probe_never_raises (VDriver 6) w)).
    vm_compute. reflexivity.
  - apply (proj2 (default_liveness_quiet_probe_never_raises (VDriver 0) w)
             (Some (Ok None))).
    + vm_compute. reflexivity.
    + intros p Hp. inversion Hp. now exists None.
Defined.



(** C5 at the sample config with [...] in the handle. *)
Lemma first_read_of_unset_sample :
  let w := sample_world VEllipsis VNone VNone false false in
  get_driver sample_build sample_alive sample_call 0 w
  = (Ok (VDriver 0), built 0 0 (VDriver 0) w, [EvBuild 0]) /\
  atexit (built 0 0 (VDriver 0) w) = [(0%nat, VDriver 0)] /\
  get_driver sample_build sample_alive sample_call 0 (built 0 0 (VDriver 0) w)
  = (Ok (VDriver 0), built 0 0 (VDriver 0) w, []).
Proof.
  intros w.
  destruct (first_read_builds_stores_schedules sample_build sample_alive sample_call
              0 w 0 VEllipsis (VDriver 0) w)
    as (Hget & _ & _ & Hatexit & Hlater); try (vm_compute; reflexivity).
  split; [exact Hget|]. split; [exact Hatexit|].
  apply (Hlater _ (VBool false)); vm_compute; reflexivity.
Defined.

(** C6 at the sample config with an exited driver stored and
    [rebuild_not_alive_driver] on. *)
Lemma read_of_exited_driver_rebuilds :
  let w := sample_world (VDriver 2) VNone VNone true false in
  count is_alive_event
    (events_of (get_driver sample_build sample_alive sample_call 0 w)) = 1%nat /\
  get_driver sample_build sample_alive sample_call 0 w
  = (Ok (VDriver 0), built 0 0 (VDriver 0) w, [EvAlive 0 (VDriver 2); EvBuild 0]).
Proof.
  intros w.
  destruct (strong_rebuild_probes_once_then_rebuilds sample_build sample_alive sample_call
              0 w 0 (VDriver 2) (VBool true))
    as (Hcount & Hdead & _); try (vm_compute; reflexivity).
  split; [exact Hcount|].
  apply (Hdead w (VDriver 0) w); vm_compute; reflexivity.
Defined.

(** C7 at the sample config with a callable in the handle. *)
Lemma read_of_callable_calls_it :
  let w := sample_world (VCallable 0) VNone VNone false false in
  get_driver sample_build sample_alive sample_call 0 w
  = call (EvCall 0) (sample_call 0) w /\
  atexit (world_of (set_driver 0 (VCallable 0) w)) = atexit w.
Proof.
  intros w.
  destruct (callable_driver_called_each_read_never_scheduled
              sample_build sample_alive sample_call 0)
    as (Hget & Hset & _).
  split.
  - apply (Hget w 0%nat 0%nat (VBool false)); vm_compute; reflexivity.
  - apply Hset.
Defined.

(** C8 at the sample config with an exited driver stored and
    [rebuild_not_alive_driver] off. *)
Lemma open_resets_exited_driver_plain_read_keeps_it :
  let w := sample_world (VDriver 2) VNone VNone false false in
  maybe_reset_driver sample_alive 0 w
  = (Ok tt, built 0 0 VEllipsis w, [EvAlive 0 (VDriver 2)]) /\
  boxes (built 0 0 VEllipsis w) !! 0%nat = Some VEllipsis /\
  get_driver sample_build sample_alive sample_call 0 w = (Ok (VDriver 2), w, []).
Proof.
  intros w.
  destruct (get_url_resets_dead_driver_plain_read_does_not
              sample_build sample_alive sample_call
              (fun _ w => (Ok (VInt 800, VInt 600), w))
              (fun _ _ _ w => (Ok tt, w))
              (fun _ _ w => (Ok tt, w))
              (fun _ => true)
              0 w 0 (VDriver 2))
    as (Hopen & Hplain); try (vm_compute; reflexivity).
  destruct (Hopen (VBool true) w (VDriver 0) (built 0 0 VEllipsis w) None)
    as (Hreset & Hbox & _); try (vm_compute; reflexivity).
  split; [exact Hreset|]. split; [exact Hbox|].
  apply (Hplain (VBool false)); vm_compute; reflexivity.
Defined.

(** C10 at the sample config: a remote url with [driver_name='firefox'],
    and nothing set. *)
Lemma default_build_of_remote_url_and_of_nothing :
  (let w := sample_world VEllipsis (VStr "firefox") (VStr "http://hub:4444/wd/hub")
              false false in
   _build_local_driver_by_name_or_remote_by_url_and_options sample_new_driver true 0 w
   = call (EvNew (NewRemote (VStr "http://hub:4444/wd/hub") VNone))
       (sample_new_driver (NewRemote (VStr "http://hub:4444/wd/hub") VNone)) w) /\
  (let w := sample_world VEllipsis VNone VNone false false in
   _build_local_driver_by_name_or_remote_by_url_and_options sample_new_driver true 0 w
   = call (EvNew (NewChrome None VNone)) (sample_new_driver (NewChrome None VNone)) w).
Proof.
  split; intros w.
  - apply (proj1 (default_build_remote_by_url_else_chrome sample_new_driver true 0 w)
             (VStr "firefox") VNone (VStr "http://hub:4444/wd/hub"));
      try (vm_compute; reflexivity).
    now left.
  - apply (proj2 (default_build_remote_by_url_else_chrome sample_new_driver true 0 w)
             VNone); vm_compute; reflexivity.
Defined.

(** C2 at the sample config: the screenshot capture raises
    NoSuchWindowException, the page source is saved, no user hook. *)
Lemma failed_screenshot_is_noted :
  let w := sample_world (VDriver 0) VNone VNone false false in
  let error := TimeoutException "Timed out after 4s, while waiting for: browser.title" in
  exists hooks e,
    or_fail_with sample_save_screenshot sample_save_page_source sample_hook
      false "/" sample_path_join sample_path_dirname 0 w = (Ok hooks, w, []) /\
    result_of (hooks error w) = Ok e /\
    String.prefix (msg error) (msg e) = true /\
    contains "cannot be saved because of" (msg e) = true.
Proof.
  intros w error.
  destruct (failure_hooks_run_in_order_and_note_failed_captures
              sample_save_screenshot sample_save_page_source sample_hook
              false "/" sample_path_join sample_path_dirname 0 w (VBool true) (VBool true))
    as (hooks & Hhooks & _ & _ & _ & Hend); try (vm_compute; reflexivity).
  edestruct (Hend error w no_such_window w) as (Hprefix & Hnote & Hrun);
    [reflexivity | reflexivity | vm_compute; reflexivity |].
  exists hooks. eexists. split; [exact Hhooks|]. rewrite Hrun.
  split; [reflexivity|]. split; [exact Hprefix|exact Hnote].
Defined.

(** * The further properties at sample inputs *)

(** X1 at the sample config with [...] in the handle and a build
    strategy that fails. *)
Lemma failed_build_leaves_sample_unset :
  let w := sample_world VEllipsis VNone VNone false false in
  get_driver failing_build sample_alive sample_call 0 w
  = (Raise session_not_created, w, [EvBuild 0]) /\
  exists r w2 t,
    get_driver failing_build sample_alive sample_call 0 w = (r, w2, EvBuild 0 :: t).
Proof.
  intros w.
  destruct (failed_build_propagates_and_stores_nothing failing_build sample_alive
              sample_call 0 w 0 VEllipsis session_not_created w)
    as (Hget & Hagain); try (vm_compute; reflexivity).
  split; [exact Hget|]. apply Hagain; vm_compute; reflexivity.
Defined.

(** X2 at a config, at address 1, that has no [driver] attribute yet. *)
Lemma first_set_on_new_config :
  let w := sample_world (VDriver 0) VNone VNone false false in
  (exists w',
     set_driver 1 (VDescriptor true) w = (Ok tt, w', []) /\
     option_value w' 1 "driver" = Some VEllipsis) /\
  (exists m, set_driver 1 (VDescriptor false) w = (Raise (TypeError m), w, [])) /\
  (exists w',
     set_driver 1 (VBox 0) w = (Ok tt, w', []) /\
     slot w' 1 "driver" = Some 0%nat).
Proof.
  intros w.
  destruct (first_set_by_kind_of_value 1 w) as ((w1 & Hd & Hv & _) & Hother & Hbox);
    [vm_compute; reflexivity|].
  split; [now exists w1|]. split; [exact Hother|].
  destruct (Hbox 0%nat) as (w2 & Hs & Hl & _). now exists w2.
Defined.

(** X3 at the sample config: the exited driver set twice. *)
Lemma exited_driver_set_twice :
  let w := sample_world (VDriver 0) VNone VNone false false in
  atexit (world_of (set_driver 0 (VDriver 2) (world_of (set_driver 0 (VDriver 2) w))))
  = [(0%nat, VDriver 2); (0%nat, VDriver 2)].
Proof.
  intros w.
  destruct (set_same_driver_twice_registers_two_handlers 0 w 0 (VDriver 2))
    as (_ & _ & _ & Hatexit); [vm_compute; reflexivity .. | exact Hatexit].
Defined.

(** X4 at the sample config with a running driver stored. *)
Lemma reset_of_sample_driver :
  let w := sample_world (VDriver 0) VNone VNone false false in
  set_driver 0 VEllipsis w = (Ok tt, built 0 0 VEllipsis w, []) /\
  atexit (built 0 0 VEllipsis w) = [(0%nat, VEllipsis)] /\
  world_of (run_handler sample_alive sample_quit (0%nat, VEllipsis) (built 0 0 VEllipsis w))
  = built 0 0 VEllipsis w.
Proof.
  intros w.
  destruct (reset_registers_handler_that_does_nothing sample_alive sample_quit 0 w 0)
    as (Hset & Hatexit & Hrun); [vm_compute; reflexivity|].
  split; [exact Hset|]. split; [exact Hatexit|].
  now apply Hrun.
Defined.

(** X5 at the sample config: three teardowns of the running driver. *)
Lemma three_teardowns_of_running_driver :
  let w := sample_world (VDriver 0) VNone VNone false false in
  (count is_quit_event (teardown_times sample_alive sample_quit 3 0 (VDriver 0) w).2 <= 1)%nat.
Proof.
  intros w.
  apply (any_number_of_teardowns_quit_at_most_once sample_alive sample_quit
           (fun w0 => drivers w0 !! 0%nat = Some exited_driver) 0 (VDriver 0)).
  - intros w0 r w1 Hq. unfold sample_quit in Hq. injection Hq as _ Hw.
    rewrite <- Hw. apply lookup_insert_eq.
  - intros w0 Hd r w1.
    unfold sample_alive, _is_driver_alive_strategy, has_service, find_driver,
      ebind, eret, read_service_process, poll, find_driver.
    repeat (rewrite Hd; cbn). intros Hr. injection Hr as <- <-.
    split; [discriminate | exact Hd].
Defined.

(** X6 at the sample config: [with_(timeout=10)]. *)
Lemma with_timeout_shares_driver :
  let w := sample_world (VDriver 0) VNone VNone false false in
  exists new w',
    with_ 0 [("timeout", VInt 10)] w = (Ok new, w', []) /\
    new <> 0%nat /\
    slot w' new "driver" = Some 0%nat /\
    slot w' 0 "driver" = Some 0%nat /\
    option_value (world_of (set_driver new (VDriver 2) w')) 0 "driver" = Some (VDriver 2).
Proof.
  intros w.
  destruct (with_other_options_shares_driver_box 0 w [("timeout", VInt 10)] 0 (VBool true))
    as (new & w' & Hwith & Hnew & Hl & Hl0 & _ & Hset); try (vm_compute; reflexivity).
  exists new, w'. repeat split; try assumption.
  now apply Hset.
Defined.

(** X7 at the sample config: a callable in the handle, and a running
    driver. *)
Lemma reset_before_get_leaves_callable_and_running_driver :
  (let w := sample_world (VCallable 0) VNone VNone false false in
   maybe_reset_driver sample_alive 0 w = (Ok tt, w, [])) /\
  (let w := sample_world (VDriver 0) VNone VNone false false in
   maybe_reset_driver sample_alive 0 w = (Ok tt, w, [EvAlive 0 (VDriver 0)])).
Proof.
  split; intros w.
  - refine (proj1 (maybe_reset_driver_leaves_driver sample_alive 0 w (VBool true)
                     (VCallable 0) _ _) _);
      try (vm_compute; reflexivity).
    right. now right.
  - refine (proj2 (maybe_reset_driver_leaves_driver sample_alive 0 w (VBool true)
                     (VDriver 0) _ _) w _ _ _ _);
      vm_compute; reflexivity.
Defined.

(** X8 at the sample config, whose [base_url] is ['']. *)
Lemma open_with_no_url_and_no_base_url :
  let w := sample_world (VDriver 0) VNone VNone false false in
  tune_window_and_get_with_base_url sample_get_window_size sample_set_window_size
    sample_driver_get sample_is_absolute_url 0 (VDriver 0) None w
  = (Ok tt, w, []).
Proof.
  intros w.
  refine (proj1 (get_without_url_only_with_base_url_on_open sample_get_window_size
                   sample_set_window_size sample_driver_get sample_is_absolute_url
                   0 (VDriver 0) w (VStr "") (VBool false) _ _) _);
    try (vm_compute; reflexivity).
  now left.
Defined.

(** X9 at the sample config with a [base_url]: a relative url. *)
Lemma open_of_relative_url :
  let w := sample_with 13 (VStr "https://example.com")
             (sample_world (VDriver 0) VNone VNone false false) in
  tune_window_and_get_with_base_url sample_get_window_size sample_set_window_size
    sample_driver_get sample_is_absolute_url 0 (VDriver 0) (Some "/login") w
  = (Ok tt, w, [EvGetUrl (VDriver 0) "https://example.com/login"]).
Proof.
  intros w. etransitivity.
  - apply (get_opens_absolute_url_or_base_url_plus_relative sample_get_window_size
             sample_set_window_size sample_driver_get sample_is_absolute_url
             0 (VDriver 0) w "/login" "https://example.com");
      vm_compute; reflexivity.
  - vm_compute. reflexivity.
Defined.

(** X10 at the sample config with [window_width] only: the height is
    the one of the window. *)
Lemma open_with_window_width_only :
  let w := sample_with 15 (VInt 1280)
             (sample_world (VDriver 0) VNone VNone false false) in
  tune_window_and_get_with_base_url sample_get_window_size sample_set_window_size
    sample_driver_get sample_is_absolute_url 0 (VDriver 0) (Some "https://example.com") w
  = (Ok tt, w,
     [EvWindowSize (VDriver 0); EvSetWindowSize (VDriver 0) 1280 768;
      EvGetUrl (VDriver 0) "https://example.com"]).
Proof.
  intros w. etransitivity.
  - apply (proj1 (proj2 (get_sets_window_size_from_options_and_current_size
                           sample_get_window_size sample_set_window_size sample_driver_get
                           sample_is_absolute_url 0 (VDriver 0) w "https://example.com"))
             1280 VNone 1024 768 w);
      first [vm_compute; reflexivity | discriminate | now left].
  - vm_compute. reflexivity.
Defined.

(** X11 at [...], the value of a handle that is not set. *)
Lemma default_liveness_of_unset_handle :
  let w := sample_world VEllipsis VNone VNone false false in
  _is_driver_alive_strategy VEllipsis w = (Ok false, w).
Proof.
  intros w. apply (default_liveness_false_for_what_is_no_driver VEllipsis w).
  intros d. discriminate.
Defined.

(** X12 at the sample config with options for an android app and
    [driver_name] ['chrome']. *)
Lemma android_options_build_appium :
  let w := sample_with 2 android_options
             (sample_world VEllipsis (VStr "chrome") VNone false false) in
  _build_local_driver_by_name_or_remote_by_url_and_options sample_new_driver true 0 w
  = (Ok (VDriver 0), w,
     [EvNew (NewAppiumRemote (VStr "http://127.0.0.1:4723/wd/hub") android_options)]) /\
  exists m,
    _build_local_driver_by_name_or_remote_by_url_and_options sample_new_driver false 0 w
    = (Raise (ImportError m), w, []).
Proof.
  intros w. split.
  - etransitivity.
    + refine (proj1 (mobile_platform_builds_appium_before_name_and_url sample_new_driver
                       true 0 w (VStr "chrome") VNone
                       [("platformName", CapStr "Android"); ("appium:app", CapStr "app.apk")]
                       "Android" _ _ _ _ _) eq_refl);
        first [vm_compute; reflexivity | now left].
    + vm_compute. reflexivity.
  - refine (proj2 (mobile_platform_builds_appium_before_name_and_url sample_new_driver
                     false 0 w (VStr "chrome") VNone
                     [("platformName", CapStr "Android"); ("appium:app", CapStr "app.apk")]
                     "Android" _ _ _ _ _) eq_refl);
      first [vm_compute; reflexivity | now left].
Defined.

(** X13 at the sample config with [driver_name] ['safari']. *)
Lemma driver_name_safari_raises :
  let w := sample_world VEllipsis (VStr "safari") VNone false false in
  exists m,
    _build_local_driver_by_name_or_remote_by_url_and_options sample_new_driver true 0 w
    = (Raise (TypeError m), w, []).
Proof.
  intros w.
  refine (proj2 (proj2 (driver_name_picks_builder_unknown_name_raises sample_new_driver
                          true 0 w "safari" VNone VNone _ _ _ _ _)) _ _ _ _ _ _);
    first [vm_compute; reflexivity | discriminate | now left].
Defined.

(** X14 at the sample config with options for Firefox and with options
    for Safari. *)
Lemma browser_name_firefox_and_safari :
  (let w := sample_with 2 firefox_options
              (sample_world VEllipsis VNone VNone false false) in
   _build_local_driver_by_name_or_remote_by_url_and_options sample_new_driver true 0 w
   = (Ok (VDriver 0), w, [EvNew (NewFirefox None firefox_options)])) /\
  (let w := sample_with 2 safari_options
              (sample_world VEllipsis VNone VNone false false) in
   exists m,
     _build_local_driver_by_name_or_remote_by_url_and_options sample_new_driver true 0 w
     = (Raise (TypeError m), w, [])).
Proof.
  split; intros w.
  - etransitivity.
    + refine (proj1 (browser_name_capability_picks_builder sample_new_driver true 0 w
                       [("browserName", CapStr "firefox")] VNone _ _ _ _ _) _);
        first [vm_compute; reflexivity
              | right; eexists; split; [reflexivity | now left]].
    + vm_compute. reflexivity.
  - refine (proj2 (proj2 (browser_name_capability_picks_builder sample_new_driver true 0 w
                            [("browserName", CapStr "safari")] VNone _ _ _ _ _))
              "safari" _ _ _ _ _ _);
      first [vm_compute; reflexivity | discriminate
            | right; eexists; split; [reflexivity | now left]].
Defined.

(** X15 at the sample config with both captures off and no user hook. *)
Lemma hooks_of_sample_with_captures_off :
  let w := sample_with 9 (VBool false)
             (sample_with 10 (VBool false)
                (sample_world (VDriver 0) VNone VNone false false)) in
  exists hooks,
    or_fail_with sample_save_screenshot sample_save_page_source sample_hook false "/"
      sample_path_join sample_path_dirname 0 w = (Ok hooks, w, []) /\
    forall error w0, hooks error w0 = (Ok error, w0, []).
Proof.
  intros w.
  destruct (captures_switched_off_are_not_taken sample_save_screenshot
              sample_save_page_source sample_hook false "/" sample_path_join
              sample_path_dirname 0 w (VBool false) (VBool false))
    as (hooks & Hhooks & Hoff & _);
    [vm_compute; reflexivity .. |].
  exists hooks. split; [exact Hhooks|]. exact (Hoff eq_refl).
Defined.

(** X16 at the sample config with a capture that fails with [OSError]. *)
Lemma os_error_of_capture_propagates :
  let w := sample_world (VDriver 0) VNone VNone false false in
  exists hooks,
    or_fail_with failing_save_screenshot sample_save_page_source sample_hook false "/"
      sample_path_join sample_path_dirname 0 w = (Ok hooks, w, []) /\
    hooks (TimeoutException "Timed out after 4s") w = (Raise no_space_left, w, [EvScreenshot 0]).
Proof.
  intros w.
  destruct (capture_failure_of_another_class_propagates failing_save_screenshot
              sample_save_page_source sample_hook false "/" sample_path_join
              sample_path_dirname 0 w (VBool true) (VBool true))
    as (hooks & Hhooks & Hraise);
    [vm_compute; reflexivity .. |].
  exists hooks. split; [exact Hhooks|]. now apply Hraise.
Defined.

(** X17 at the sample config with a capture that saves the file. *)
Lemma saved_screenshot_of_sample :
  let w := sample_world (VDriver 0) VNone VNone false false in
  save_and_log_screenshot saving_save_screenshot false "/" 0
    (TimeoutException "Timed out after 4s") w
  = (Ok (TimeoutException
           ("Timed out after 4s" +:+ nl +:+
            "Screenshot: file:///home/user/.selene/screenshots/1/1700000000000.png")),
     w, [EvScreenshot 0]).
Proof.
  intros w.
  exact (proj1 (saved_screenshot_is_linked_in_message saving_save_screenshot false "/" 0
                  (TimeoutException "Timed out after 4s") w
                  (Some "/home/user/.selene/screenshots/1/1700000000000.png") w eq_refl)
           eq_refl).
Defined.

(** X18 at a path of Windows. *)
Lemma uri_of_windows_path :
  let w := sample_world (VDriver 0) VNone VNone false false in
  _format_path_as_uri true "\" (Some "C:\reports\1.png") w
  = (Ok "file://C:/reports/1.png", w, []).
Proof.
  intros w.
  exact (proj2 (path_as_uri_changes_only_separators true "\" "C:\reports\1.png" "\"%char w)
           eq_refl eq_refl).
Defined.


